(** * es-shim API validator (api.js): a shallow embedding

    The validator is a Node script driving the [tape] test harness.  Its
    observable behaviour is the sequence of harness calls it makes
    (comments, assertions, nested tests, the spawned probe) and whether
    it runs to the end or lets an exception escape.  The embedding keeps
    exactly that: every function of api.js becomes a computation in a
    small writer-and-exception monad whose log is the list of harness
    calls.

    Everything api.js takes from its host (Node's [require], [fs],
    [path], calling a function exported by a module under test) is a
    field of the record [Host]; theorems quantify over every host.

    What the embedding takes for granted: [require] and a call of an
    exported function answer the same way each time they are asked
    (Node caches modules; the functions of a shim package are expected
    to be idempotent); properties are data properties; numbers are
    integers; how an object converts to a string is the host's to say,
    and it may throw.  The harness catches no exception, so one that escapes a
    test callback ends the process. *)

From Stdlib Require Import String Ascii List Bool ZArith Arith Lia DecimalString.
Import ListNotations.
Open Scope list_scope.
Open Scope string_scope.

Set Warnings "-register-all".

(** ** JavaScript values *)

(** Objects are compared by identity.  Functions and plain objects only
    ever come from the host (a module's export, what a call returned)
    and carry their identity as a number.  Arrays and errors are also
    allocated by the validator itself: their reference is [Some n] for
    a host object and [None] for one the validator has just made, which
    is identical to no other value. *)
Definition Ref := option nat.

Inductive ErrorClass :=
| EvalErrorClass
| OtherErrorClass (name : string).

Inductive Value :=
| VUndefined
| VNull
| VBool (b : bool)
| VNum (n : Z)
| VStr (s : string)
| VSymbol (ref : nat)
| VFunction (ref : nat) (props : list (string * Value))
| VObject (ref : nat) (props : list (string * Value))
| VArray (ref : Ref) (elems : list (option Value)) (props : list (string * Value))
| VError (ref : Ref) (cls : ErrorClass) (message : string).

(** In [VArray r elems props], [elems] has one entry per index below
    [length]; [None] is a hole.  [props] are the enumerable own
    properties that are not indices. *)

Definition ref_eqb (r1 r2 : Ref) : bool :=
  match r1, r2 with
  | Some n1, Some n2 => Nat.eqb n1 n2
  | _, _ => false
  end.

(** [a === b] *)
Definition strict_equal (a b : Value) : bool :=
  match a, b with
  | VUndefined, VUndefined => true
  | VNull, VNull => true
  | VBool x, VBool y => Bool.eqb x y
  | VNum x, VNum y => Z.eqb x y
  | VStr x, VStr y => String.eqb x y
  | VSymbol r1, VSymbol r2 => Nat.eqb r1 r2
  | VFunction r1 _, VFunction r2 _ => Nat.eqb r1 r2
  | VObject r1 _, VObject r2 _ => Nat.eqb r1 r2
  | VArray r1 _ _, VArray r2 _ _ => ref_eqb r1 r2
  | VError r1 _ _, VError r2 _ _ => ref_eqb r1 r2
  | _, _ => false
  end.

(** [typeof v] *)
Definition typeof (v : Value) : string :=
  match v with
  | VUndefined => "undefined"
  | VNull => "object"
  | VBool _ => "boolean"
  | VNum _ => "number"
  | VStr _ => "string"
  | VSymbol _ => "symbol"
  | VFunction _ _ => "function"
  | VObject _ _ | VArray _ _ _ | VError _ _ _ => "object"
  end.

(** [!!v] *)
Definition truthy (v : Value) : bool :=
  match v with
  | VUndefined | VNull => false
  | VBool b => b
  | VNum n => negb (Z.eqb n 0)
  | VStr s => negb (String.eqb s "")
  | _ => true
  end.

(** [v instanceof EvalError] *)
Definition instanceof_EvalError (v : Value) : bool :=
  match v with
  | VError _ EvalErrorClass _ => true
  | _ => false
  end.

(** [Array.isArray(v)] *)
Definition isArray (v : Value) : bool :=
  match v with
  | VArray _ _ _ => true
  | _ => false
  end.

Fixpoint lookup (k : string) (ps : list (string * Value)) : option Value :=
  match ps with
  | [] => None
  | (k', v) :: ps' => if String.eqb k k' then Some v else lookup k ps'
  end.

(** [String(i)] for an array index. *)
Definition String_of_index (i : nat) : string :=
  NilEmpty.string_of_uint (Nat.to_uint i).

(** ** The host *)

Inductive Outcome (A : Type) :=
| Returns (a : A)
| Throws (e : Value).
Arguments Returns {A} a.
Arguments Throws {A} e.

Record Host := {
  (** [require(name)] as api.js calls it: relative names resolve against
      the directory of api.js itself.  A module may throw any value. *)
  require : string -> Outcome Value;
  (** calling the function object with this identity, without arguments *)
  call : nat -> Outcome Value;
  (** the string an object converts to (through its own [toString] or
      [valueOf], which may throw) *)
  to_string : Value -> Outcome string;
  (** [fs.readdirSync(p)]; a relative [p] resolves against the
      process's working directory *)
  readdirSync : string -> Outcome (list string);
  (** [fs.statSync(p).isDirectory()], [p] resolved the same way *)
  statSync_isDirectory : string -> Outcome bool;
  path_join : string -> string -> string;
  path_dirname : string -> string;
  path_basename : string -> string;
  (** [__dirname] of api.js *)
  dirname_ : string;
  (** [process.cwd()] *)
  cwd : string;
  (** [fs.existsSync(p)] *)
  existsSync : string -> bool
}.

(** ** The harness calls *)

(** An exception on its way up: a value thrown by foreign code, or a
    [TypeError] raised by the engine. *)
Inductive Exn :=
| Thrown (v : Value)
| TypeError (what : string).

Inductive Check :=
| Ok (v : Value)                (* t.ok(v, msg) *)
| Equal (a b : Value)           (* t.equal(a, b, msg) *)
| DeepEqual (a b : Value)       (* t.deepEqual(a, b, msg) *)
| NoError (v : Value).          (* t.error(v, msg) *)

Inductive Record :=
| Comment (msg : string)
| Assert (c : Check) (msg : string)
| Plan (n : nat)
| End
| Spawn (command : string) (args : list string) (cwd : string) (stdio : string)
| OnClose (listener : Value -> list Record)
| Test (name : string) (skip : bool) (body : list Record) (crash : option Exn).

(** [Test name skip body crash] is [t.test(name, { skip: skip }, cb)]:
    [body] is what [cb] calls on its own test object and [crash] the
    exception that ends [cb], if one does. *)

Inductive Result (A : Type) :=
| Done (a : A)
| Crash (e : Exn).
Arguments Done {A} a.
Arguments Crash {A} e.

Definition M (A : Type) : Type := list Record * Result A.

Definition ret {A} (a : A) : M A := ([], Done a).

Definition bind {A B} (m : M A) (k : A -> M B) : M B :=
  match m with
  | (l, Done a) => let (l', r) := k a in ((l ++ l')%list, r)
  | (l, Crash e) => (l, Crash e)
  end.

Definition throw {A} (e : Exn) : M A := ([], Crash e).
Definition emit (r : Record) : M unit := ([r], Done tt).

Notation "x <- c ;; k" := (bind c (fun x => k))
  (at level 61, c at next level, right associativity).
Notation "c ;; k" := (bind c (fun _ => k))
  (at level 61, right associativity).

Definition lift {A} (o : Outcome A) : M A :=
  match o with
  | Returns a => ret a
  | Throws e => throw (Thrown e)
  end.

Definition crash_of {A} (m : M A) : option Exn :=
  match snd m with
  | Done _ => None
  | Crash e => Some e
  end.

(** [t.test(name, { skip: skip }, cb)] *)
Definition t_test (name : string) (skip : bool) (cb : M unit) : M unit :=
  emit (Test name skip (fst cb) (crash_of cb)).

Definition comment (msg : string) : M unit := emit (Comment msg).
Definition t_ok (v : Value) (msg : string) : M unit := emit (Assert (Ok v) msg).
Definition t_equal (a b : Value) (msg : string) : M unit := emit (Assert (Equal a b) msg).
Definition t_deepEqual (a b : Value) (msg : string) : M unit :=
  emit (Assert (DeepEqual a b) msg).
Definition t_error (v : Value) (msg : string) : M unit := emit (Assert (NoError v) msg).
Definition t_end : M unit := emit End.

(** ** Engine operations api.js relies on *)

(** [v.k] for the property names api.js reads. *)
Definition get_prop (v : Value) (k : string) : M Value :=
  match v with
  | VUndefined | VNull => throw (TypeError ("cannot read property " ++ k))
  | VFunction _ ps | VObject _ ps | VArray _ _ ps =>
      ret (match lookup k ps with Some w => w | None => VUndefined end)
  | VError _ _ m => ret (if String.eqb k "message" then VStr m else VUndefined)
  | _ => ret VUndefined
  end.

(** [f()] *)
Definition call_value (h : Host) (f : Value) : M Value :=
  match f with
  | VFunction r _ => lift (call h r)
  | _ => throw (TypeError "not a function")
  end.

(** The conversion of a value to a string (ToString): fixed for the
    primitives, a [TypeError] for a symbol, the object's own affair
    otherwise. *)
Definition ToString (h : Host) (v : Value) : M string :=
  match v with
  | VUndefined => ret "undefined"
  | VNull => ret "null"
  | VBool true => ret "true"
  | VBool false => ret "false"
  | VNum n => ret (NilZero.string_of_int (Z.to_int n))
  | VStr s => ret s
  | VSymbol _ => throw (TypeError "Cannot convert a Symbol value to a string")
  | _ => lift (to_string h v)
  end.

(** [new EvalError(m)]: the message is converted to a string unless it
    is [undefined], which leaves the empty message. *)
Definition new_EvalError (h : Host) (m : Value) : M Value :=
  match m with
  | VUndefined => ret (VError None EvalErrorClass "")
  | _ =>
      s <- ToString h m ;;
      ret (VError None EvalErrorClass s)
  end.

(** ** api.js *)

Record Config := {
  isBound : bool;
  isProperty : bool;
  skipShimPolyfill : bool;
  skipAutoShim : bool;
  isMulti : bool
}.

Definition argEquals (argName arg : string) : bool := String.eqb arg argName.
Definition isArg (x : string) : bool := String.eqb (substring 0 2 x) "--".

Definition config_of_args (args : list string) : Config :=
  {| isBound := existsb (argEquals "--bound") args;
     isProperty := existsb (argEquals "--property") args;
     skipShimPolyfill := existsb (argEquals "--skip-shim-returns-polyfill") args;
     skipAutoShim := existsb (argEquals "--skip-auto-shim") args;
     isMulti := existsb (argEquals "--multi") args |}.

(** lines 52-58 *)
Definition requireOrEvalError (h : Host) (name : string) : M Value :=
  match require h name with
  | Returns v => ret v
  | Throws e =>
      m <- get_prop e "message" ;;
      new_EvalError h m
  end.

(** lines 59-75.  The callback of the nested test first; [testAuto]
    registers it. *)
Definition autoCallback (h : Host) (cfg : Config) (packageDir : string)
    (asMulti : bool) : M unit :=
  let msg := "auto is present" in
  if skipAutoShim cfg then
    comment ("# SKIP " ++ msg) ;;
    t_end
  else
    _ <- lift (require h (path_join h packageDir "/auto")) ;;
    comment (msg ++ " (pass `--skip-auto-shim` to skip this test)") ;;
    emit (Spawn
            (path_join h (dirname_ h)
               (if asMulti then "multiAutoTest.js" else "autoTest.js"))
            [] packageDir "inherit") ;;
    emit (Plan 1) ;;
    emit (OnClose (fun code => [Assert (Equal code (VNum 0)) "auto invokes shim"])).

Definition testAuto (h : Host) (cfg : Config) (prefix packageDir : string)
    (asMulti : bool) : M unit :=
  t_test (prefix ++ "auto") false (autoCallback h cfg packageDir asMulti).

(** lines 87-94 *)
Definition exportCallback (h : Host) (cfg : Config) (module getPolyfill : Value)
    : M unit :=
  t_equal (VStr (typeof module)) (VStr "function") "module is a function" ;;
  t_test "module is NOT bound (pass `--bound` to skip this test)" (isBound cfg)
    (p <- call_value h getPolyfill ;;
     t_equal module p "module.exports === getPolyfill()" ;;
     t_end) ;;
  t_end.

(** lines 96-108 *)
Definition implementationCallback (cfg : Config) (module implementation : Value)
    : M unit :=
  (if isMulti cfg then
     comment "# SKIP module.exports.implementation === implementation.js"
   else
     i <- get_prop module "implementation" ;;
     t_equal implementation i "module.exports.implementation === implementation.js") ;;
  (if isProperty cfg then
     comment "# SKIP implementation that is a data property need not be a function"
   else
     t_equal (VStr (typeof implementation)) (VStr "function")
       "implementation is a function (pass `--property` to skip this test)") ;;
  t_end.

(** lines 110-118 *)
Definition polyfillCallback (cfg : Config) (module getPolyfill : Value) : M unit :=
  (if isMulti cfg then
     comment "# SKIP module.exports.getPolyfill === polyfill.js"
   else
     g <- get_prop module "getPolyfill" ;;
     t_equal getPolyfill g "module.exports.getPolyfill === polyfill.js") ;;
  t_equal (VStr (typeof getPolyfill)) (VStr "function") "getPolyfill is a function" ;;
  t_end.

Definition shimReturnsPolyfillMsg : string :=
  "shim returns polyfill (pass `--skip-shim-returns-polyfill` to skip this test)".

(** lines 120-136 *)
Definition shimCallback (h : Host) (cfg : Config) (module shim getPolyfill : Value)
    : M unit :=
  (if isMulti cfg then
     comment "# SKIP module.exports.shim === shim.js"
   else
     s <- get_prop module "shim" ;;
     t_equal shim s "module.exports.shim === shim.js") ;;
  t_equal (VStr (typeof shim)) (VStr "function") "shim is a function" ;;
  (if String.eqb (typeof shim) "function" then
     let msg := shimReturnsPolyfillMsg in
     if skipShimPolyfill cfg then
       comment ("# SKIP " ++ msg)
     else
       a <- call_value h shim ;;
       b <- call_value h getPolyfill ;;
       t_equal a b msg
   else ret tt) ;;
  t_end.

(** lines 76-141 *)
Definition doValidation (h : Host) (cfg : Config) (packageDir name : string)
    : M Value :=
  module <- requireOrEvalError h name ;;
  if instanceof_EvalError module then ret module
  else
    implementation <- requireOrEvalError h (packageDir ++ "/implementation") ;;
    shim <- requireOrEvalError h (packageDir ++ "/shim") ;;
    getPolyfill <- requireOrEvalError h (packageDir ++ "/polyfill") ;;
    let prefix :=
      if isMulti cfg then path_basename h packageDir ++ ": " else "" in
    t_test (prefix ++ "export") false (exportCallback h cfg module getPolyfill) ;;
    t_test (prefix ++ "implementation") false
      (implementationCallback cfg module implementation) ;;
    t_test (prefix ++ "polyfill") false (polyfillCallback cfg module getPolyfill) ;;
    t_test (prefix ++ "shim") false (shimCallback h cfg module shim getPolyfill) ;;
    testAuto h cfg prefix packageDir false ;;
    ret VUndefined.

(** *** Arrays, as lines 155-182 use them *)

(** The index keys of [Object.keys(a)], counting from index [i]. *)
Fixpoint index_keys_from (i : nat) (elems : list (option Value)) : list string :=
  match elems with
  | [] => []
  | None :: es => index_keys_from (S i) es
  | Some _ :: es => String_of_index i :: index_keys_from (S i) es
  end.

(** [Object.keys(a)] of an array: index keys in ascending order, then
    the other enumerable properties in creation order. *)
Definition Object_keys (elems : list (option Value)) (props : list (string * Value))
    : list string :=
  (index_keys_from 0 elems ++ map fst props)%list.

(** [a.map(f)]: same length, holes stay holes, [f] sees the element and
    its index; the other properties are not carried over. *)
Fixpoint Array_map_from (f : Value -> nat -> Value) (i : nat)
    (elems : list (option Value)) : list (option Value) :=
  match elems with
  | [] => []
  | None :: es => None :: Array_map_from f (S i) es
  | Some v :: es => Some (f v i) :: Array_map_from f (S i) es
  end.

(** A fresh array holding the given strings. *)
Definition array_of_strings (ss : list string) : Value :=
  VArray None (map (fun s => Some (VStr s)) ss) [].

(** [a.forEach(f)]: holes are not visited; an exception ends the loop. *)
Fixpoint Array_forEach (f : Value -> M unit) (elems : list (option Value)) : M unit :=
  match elems with
  | [] => ret tt
  | None :: es => Array_forEach f es
  | Some v :: es => f v ;; Array_forEach f es
  end.

(** [l.filter(p)] for a predicate that may throw. *)
Fixpoint filterM (p : string -> M bool) (l : list string) : M (list string) :=
  match l with
  | [] => ret []
  | d :: ds =>
      b <- p d ;;
      rest <- filterM p ds ;;
      ret (if b then d :: rest else rest)
  end.

(** [path.join(dir, v)]: Node rejects an argument that is not a string. *)
Definition path_join_value (h : Host) (dir : string) (v : Value) : M string :=
  match v with
  | VStr s => ret (path_join h dir s)
  | _ => throw (TypeError "The path argument must be of type string")
  end.

(** What [moduleNames] pairs a display name with: a bare name (line 36)
    or the pair of line 50. *)
Inductive NameOrFilePaths :=
| Name (name : string)
| FilePaths (name packageDir : string).

(** lines 163-169: the predicate of the filter *)
Definition isSubPackageDir (h : Host) (d : string) : M bool :=
  if negb (prefix "." d)
     && negb (String.eqb d "node_modules")
     && negb (String.eqb d "helpers")
     && negb (String.eqb d "test")
  then lift (statSync_isDirectory h d)
  else ret false.

(** lines 156-160: what the second root assertion compares *)
Definition keysCheck (elems : list (option Value)) (props : list (string * Value))
    : Check :=
  DeepEqual
    (array_of_strings (Object_keys elems props))
    (VArray None (Array_map_from (fun _ i => VStr (String_of_index i)) 0 elems) []).

(** lines 179-182: the callback of the loop over the sub-packages *)
Definition validateSubPackage (h : Host) (cfg : Config) (name : string)
    (subPackage : Value) : M unit :=
  subPackageDir <- path_join_value h (path_dirname h name) subPackage ;;
  _ <- doValidation h cfg subPackageDir subPackageDir ;;
  ret tt.

(** lines 156-177: the checks on an array export and on the root *)
Definition rootChecks (h : Host) (cfg : Config) (packageDir : string)
    (subPackages : Value) (elems : list (option Value))
    (props : list (string * Value)) : M unit :=
  emit (Assert (keysCheck elems props) "main export has no additional properties") ;;
  t_ok (VBool (0 <? length elems)%nat) "array is not empty" ;;
  entries <- lift (readdirSync h packageDir) ;;
  dirs <- filterM (isSubPackageDir h) entries ;;
  t_deepEqual subPackages (array_of_strings dirs)
    "main export subpackages matches dirs in the package root" ;;
  shim <- requireOrEvalError h (packageDir ++ "/shim") ;;
  t_equal (VStr (typeof shim)) (VStr "function") "root shim is a function" ;;
  testAuto h cfg "root: " packageDir true ;;
  implementation <- requireOrEvalError h "./implementation" ;;
  t_ok (VBool (instanceof_EvalError implementation))
    "root lacks an `implementation` module".

Definition name_of (nameOrFilePaths : NameOrFilePaths) : string :=
  match nameOrFilePaths with
  | Name n => n
  | FilePaths n _ => n
  end.

Definition packageDir_of (nameOrFilePaths : NameOrFilePaths) : string :=
  match nameOrFilePaths with
  | Name n => n
  | FilePaths _ d => d
  end.

(** lines 143-188.  An export that is not an array has no [map]; the
    call of line 158 then raises a [TypeError].  (A non-array export
    that brings a [map] method of its own is outside this model.) *)
Definition validateModule (h : Host) (cfg : Config) (nameOrFilePaths : NameOrFilePaths)
    : M Value :=
  let name := name_of nameOrFilePaths in
  let packageDir := packageDir_of nameOrFilePaths in
  if isMulti cfg then
    subPackages <- requireOrEvalError h name ;;
    if instanceof_EvalError subPackages then ret subPackages
    else
      t_ok (VBool (isArray subPackages)) "main export is an array of sub packages" ;;
      match subPackages with
      | VArray _ elems props =>
          rootChecks h cfg packageDir subPackages elems props ;;
          Array_forEach (validateSubPackage h cfg name) elems ;;
          ret VUndefined
      | _ => throw (TypeError "subPackages.map is not a function")
      end
  else
    _ <- doValidation h cfg packageDir name ;;
    ret VUndefined.

(** lines 190-198: the top-level test of one entry of [moduleNames] *)
Definition moduleCallback (h : Host) (cfg : Config) (filePath : NameOrFilePaths)
    : M unit :=
  comment "* ----------------------------- * #" ;;
  e <- validateModule h cfg filePath ;;
  t_error e "expected no error" ;;
  t_end.

Definition moduleTest (h : Host) (cfg : Config) (data : string * NameOrFilePaths)
    : Record :=
  let cb := moduleCallback h cfg (snd data) in
  Test ("es-shim API : testing module: " ++ fst data) false (fst cb) (crash_of cb).

Definition testModules (h : Host) (cfg : Config)
    (moduleNames : list (string * NameOrFilePaths)) : list Record :=
  map (moduleTest h cfg) moduleNames.

(** lines 33-51 *)
Definition makeEntries (name : string) : string * NameOrFilePaths := (name, Name name).

Inductive Startup :=
| Exit (code : Z)
| Abort (e : Exn)
| Start (moduleNames : list (string * NameOrFilePaths)).

Definition moduleNames (h : Host) (args : list string) : Startup :=
  let names := map makeEntries (filter (fun a => negb (isArg a)) args) in
  if (length names <? 1)%nat then
    let packagePath := path_join h (cwd h) "package.json" in
    if negb (existsSync h packagePath) then Exit 1
    else
      match require h packagePath with
      | Throws e => Abort (Thrown e)
      | Returns pkg =>
          match get_prop pkg "name", get_prop pkg "main" with
          | (_, Done pkgName), (_, Done pkgMain) =>
              if negb (truthy pkgName) then Exit 2
              else
                match ToString h pkgName with
                | (_, Crash e) => Abort e
                | (_, Done shown) =>
                    match (if truthy pkgMain then pkgMain else VStr "") with
                    | VStr main =>
                        Start [(shown ++ " (current directory)",
                                FilePaths (path_join h (cwd h) main) (cwd h))]
                    | _ => Abort (TypeError "The path argument must be of type string")
                    end
                end
          | (_, Crash e), _ | _, (_, Crash e) => Abort e
          end
      end
  else Start names.

(** The whole script: the tests it registers with the harness. *)
Definition api (h : Host) (args : list string) : Startup + list Record :=
  match moduleNames h args with
  | Start names => inr (testModules h (config_of_args args) names)
  | stop => inl stop
  end.

(** ** The harness (tape), as far as api.js uses it *)

Definition is_hole (o : option Value) : bool :=
  match o with None => true | Some _ => false end.

Definition ErrorClass_eqb (c1 c2 : ErrorClass) : bool :=
  match c1, c2 with
  | EvalErrorClass, EvalErrorClass => true
  | OtherErrorClass n1, OtherErrorClass n2 => String.eqb n1 n2
  | _, _ => false
  end.

(** [t.deepEqual] compares with the package deep-equal in strict mode.
    Two arrays (two objects) are equal when they have the same own
    enumerable keys and deep-equal values under every key; [length] is
    not an enumerable key, so holes at the end of an array do not
    count.  Two errors are equal when name and message agree.
    Functions and primitives are compared as [===] does. *)
Definition elems_equal (eq : Value -> Value -> bool) :=
  fix go (xs ys : list (option Value)) {struct xs} : bool :=
    match xs, ys with
    | [], _ => forallb is_hole ys
    | None :: xs', [] => go xs' []
    | None :: xs', None :: ys' => go xs' ys'
    | Some x :: xs', Some y :: ys' => eq x y && go xs' ys'
    | _, _ => false
    end.

Definition props_equal (eq : Value -> Value -> bool) (qs : list (string * Value)) :=
  fix go (ps : list (string * Value)) {struct ps} : bool :=
    match ps with
    | [] => true
    | (k, v) :: ps' =>
        match lookup k qs with
        | Some w => eq v w && go ps'
        | None => false
        end
    end.

Fixpoint deep_equal (a b : Value) {struct a} : bool :=
  match a, b with
  | VArray _ ea pa, VArray _ eb pb =>
      elems_equal deep_equal ea eb
      && (length pa =? length pb)%nat && props_equal deep_equal pb pa
  | VObject _ pa, VObject _ pb =>
      (length pa =? length pb)%nat && props_equal deep_equal pb pa
  | VError _ c1 m1, VError _ c2 m2 => ErrorClass_eqb c1 c2 && String.eqb m1 m2
  | VArray _ _ _, _ | VObject _ _, _ | VError _ _ _, _ => false
  | _, _ => strict_equal a b
  end.

(** Whether the harness reports the assertion as passed. *)
Definition passes (c : Check) : bool :=
  match c with
  | Ok v => truthy v
  | Equal a b => strict_equal a b
  | DeepEqual a b => deep_equal a b
  | NoError v => negb (truthy v)
  end.

(** What the harness sees, in the order it happens. *)
Inductive Line :=
| LTest (name : string)               (* a test starts: its callback is run *)
| LSkip (name : string)               (* a test is skipped: [# SKIP name] *)
| LComment (msg : string)
| LAssert (c : Check) (msg : string)
| LPlan (n : nat)
| LEnd
| LSpawn (command : string) (args : list string) (cwd : string) (stdio : string)
| LOnClose (listener : Value -> list Record).

(** The calls a callback makes on its own test object, nested tests
    left out: those are only queued while the callback runs. *)
Fixpoint own_lines (body : list Record) : list Line :=
  match body with
  | [] => []
  | r :: rs =>
      match r with
      | Comment m => LComment m :: own_lines rs
      | Assert c m => LAssert c m :: own_lines rs
      | Plan n => LPlan n :: own_lines rs
      | End => LEnd :: own_lines rs
      | Spawn c a d s => LSpawn c a d s :: own_lines rs
      | OnClose k => LOnClose k :: own_lines rs
      | Test _ _ _ _ => own_lines rs
      end
  end.

(** Running one queued test.  A skipped test only announces itself.
    Otherwise its callback runs to its end (or to the exception that
    escapes it: the harness catches nothing, so the process dies and
    the queued tests never run); after that the tests it queued run one
    after the other, in the order they were queued.  A spawned probe is
    taken to close eventually; what its listener does then is in
    [LOnClose]. *)
Fixpoint run_test (r : Record) : list Line * option Exn :=
  match r with
  | Test name skip body crash =>
      if skip then ([LSkip name], None)
      else
        match crash with
        | Some e => (LTest name :: own_lines body, Some e)
        | None =>
            let '(ls, c) :=
              (fix queued (rs : list Record) : list Line * option Exn :=
                 match rs with
                 | [] => ([], None)
                 | r' :: rs' =>
                     match run_test r' with
                     | (ls, Some e) => (ls, Some e)
                     | (ls, None) =>
                         let '(ls', c) := queued rs' in ((ls ++ ls')%list, c)
                     end
                 end) body in
            ((LTest name :: own_lines body ++ ls)%list, c)
        end
  | _ => ([], None)
  end.

(** The tests queued in [rs], run in order until one dies. *)
Fixpoint run_queue (rs : list Record) : list Line * option Exn :=
  match rs with
  | [] => ([], None)
  | r :: rs' =>
      match run_test r with
      | (ls, Some e) => (ls, Some e)
      | (ls, None) => let '(ls', c) := run_queue rs' in ((ls ++ ls')%list, c)
      end
  end.

(** The transcript of a run of the script over [moduleNames]. *)
Definition transcript (h : Host) (cfg : Config)
    (names : list (string * NameOrFilePaths)) : list Line * option Exn :=
  run_queue (testModules h cfg names).

(** Every line the tests queued in a log can produce: what the
    transcript is when nothing throws. *)
Fixpoint all_lines_of (r : Record) : list Line :=
  match r with
  | Test name skip body _ =>
      if skip then [LSkip name]
      else
        (LTest name :: own_lines body ++
           (fix queued (rs : list Record) : list Line :=
              match rs with
              | [] => []
              | r' :: rs' => all_lines_of r' ++ queued rs'
              end) body)%list
  | _ => []
  end.

Fixpoint all_lines (rs : list Record) : list Line :=
  match rs with
  | [] => []
  | r :: rs' => (all_lines_of r ++ all_lines rs')%list
  end.

(** The five tests [doValidation] queues once the four modules are
    loaded (lines 85-138). *)
Definition battery (h : Host) (cfg : Config) (packageDir : string)
    (module implementation shim getPolyfill : Value) : list Record :=
  let prefix :=
    if isMulti cfg then path_basename h packageDir ++ ": " else "" in
  let test name cb := Test (prefix ++ name) false (fst cb) (crash_of cb) in
  [ test "export" (exportCallback h cfg module getPolyfill);
    test "implementation" (implementationCallback cfg module implementation);
    test "polyfill" (polyfillCallback cfg module getPolyfill);
    test "shim" (shimCallback h cfg module shim getPolyfill);
    test "auto" (autoCallback h cfg packageDir false) ].

(** The sub-directories of the package directory that count as
    sub-packages, in the words of the specification: an entry of the
    package directory that is not hidden, is none of [node_modules],
    [helpers] and [test], and is a directory of the package directory. *)
Definition isDirectoryOf (h : Host) (packageDir d : string) : bool :=
  match statSync_isDirectory h (path_join h packageDir d) with
  | Returns b => b
  | Throws _ => false
  end.

Definition eligibleSubDirs (h : Host) (packageDir : string) (entries : list string)
    : list string :=
  filter
    (fun d =>
       negb (prefix "." d)
       && negb (String.eqb d "node_modules")
       && negb (String.eqb d "helpers")
       && negb (String.eqb d "test")
       && isDirectoryOf h packageDir d)
    entries.

(** No hole lies below an element: the elements come first, the holes,
    if any, after the last of them. *)
Fixpoint dense_then_holes (elems : list (option Value)) : bool :=
  match elems with
  | [] => true
  | Some _ :: es => dense_then_holes es
  | None :: es => forallb is_hole es
  end.

(** The lines of a test whose callback is [cb], after its heading. *)
Definition callback_lines (cb : M unit) : list Line :=
  (own_lines (fst cb) ++ all_lines (fst cb))%list.

(** ** Reading a transcript *)

(** Some assertion carries the message [msg]. *)
Definition has_assert (msg : string) (ls : list Line) : bool :=
  existsb (fun l => match l with LAssert _ m => String.eqb m msg | _ => false end) ls.

Definition has_comment (msg : string) (ls : list Line) : bool :=
  existsb (fun l => match l with LComment m => String.eqb m msg | _ => false end) ls.

(** The test named [name] was announced as skipped. *)
Definition has_skip (name : string) (ls : list Line) : bool :=
  existsb (fun l => match l with LSkip n => String.eqb n name | _ => false end) ls.

Definition has_spawn (ls : list Line) : bool :=
  existsb (fun l => match l with LSpawn _ _ _ _ => true | _ => false end) ls.

(** The outcome the harness reports for the assertion with message
    [msg], if the transcript has one. *)
Fixpoint outcome_of (msg : string) (ls : list Line) : option bool :=
  match ls with
  | [] => None
  | LAssert c m :: ls' => if String.eqb m msg then Some (passes c) else outcome_of msg ls'
  | _ :: ls' => outcome_of msg ls'
  end.

(** ** Hosts for concrete runs *)

Module Scenario.

(** The path functions of a POSIX host, for paths that are already
    normal (no [.], [..], doubled or final slash). *)
Fixpoint split_path (p : string) : option (string * string) :=
  match p with
  | EmptyString => None
  | String c rest =>
      match split_path rest with
      | Some (d, b) => Some (String c d, b)
      | None => if Ascii.eqb c "/" then Some (EmptyString, rest) else None
      end
  end.

Definition join (a b : string) : string :=
  if String.eqb b "" then a
  else if prefix "/" b || String.eqb a "/" then a ++ b else a ++ "/" ++ b.

Definition dirname (p : string) : string :=
  match split_path p with
  | Some (d, _) => if String.eqb d "" then "/" else d
  | None => "."
  end.

Definition basename (p : string) : string :=
  match split_path p with
  | Some (_, b) => b
  | None => p
  end.

(** Objects convert the way plain objects do. *)
Definition objectToString (v : Value) : Outcome string :=
  Returns "[object Object]".

Fixpoint assoc {A} (k : string) (l : list (string * A)) : option A :=
  match l with
  | [] => None
  | (k', a) :: l' => if String.eqb k k' then Some a else assoc k l'
  end.

Definition notFound (what : string) : Value :=
  VError (Some 0) (OtherErrorClass "Error") what.

(** A host given by its modules (what [require] finds under each
    name), what its functions return, and its file system: the
    entries of each directory and, for each path, whether it is a
    directory.  Paths are listed as the script passes them. *)
Definition host (modules : list (string * Outcome Value))
    (calls : list (nat * Outcome Value))
    (listing : list (string * list string))
    (isDir : list (string * bool)) (wd : string) : Host :=
  {| require := fun name =>
       match assoc name modules with
       | Some o => o
       | None => Throws (notFound ("Cannot find module '" ++ name ++ "'"))
       end;
     call := fun r =>
       match find (fun c => Nat.eqb (fst c) r) calls with
       | Some c => snd c
       | None => Returns VUndefined
       end;
     to_string := objectToString;
     readdirSync := fun p =>
       match assoc p listing with
       | Some l => Returns l
       | None => Throws (notFound ("ENOENT: no such file or directory, scandir '" ++ p ++ "'"))
       end;
     statSync_isDirectory := fun p =>
       match assoc p isDir with
       | Some b => Returns b
       | None => Throws (notFound ("ENOENT: no such file or directory, stat '" ++ p ++ "'"))
       end;
     path_join := join;
     path_dirname := dirname;
     path_basename := basename;
     dirname_ := "/usr/lib/node_modules/@es-shims/api";
     cwd := wd;
     existsSync := fun p => match assoc p isDir with Some _ => true | None => false end |}.

Definition single : Config :=
  {| isBound := false; isProperty := false; skipShimPolyfill := false;
     skipAutoShim := false; isMulti := false |}.

Definition multi : Config :=
  {| isBound := false; isProperty := false; skipShimPolyfill := false;
     skipAutoShim := false; isMulti := true |}.


(** *** A well-behaved package at [/pkg] *)

Definition impl : Value := VFunction 2 [].
Definition getPolyfill : Value := VFunction 3 [].
Definition shim : Value := VFunction 4 [].
Definition main : Value :=
  VFunction 1 [("implementation", impl); ("getPolyfill", getPolyfill); ("shim", shim)].

(** The modules of a package in [dir] whose entry point is required
    as [name]. *)
Definition package (name dir : string) : list (string * Outcome Value) :=
  [ (name, Returns main);
    (dir ++ "/implementation", Returns impl);
    (dir ++ "/polyfill", Returns getPolyfill);
    (dir ++ "/shim", Returns shim);
    (dir ++ "/auto", Returns VUndefined) ].

Definition packageCalls : list (nat * Outcome Value) :=
  [ (3, Returns main); (4, Returns main) ].

Definition goodPackage : Host :=
  host (package "/pkg/index.js" "/pkg") packageCalls [] [] "/pkg".


Definition allSkips : Config :=
  {| isBound := true; isProperty := true; skipShimPolyfill := true;
     skipAutoShim := true; isMulti := false |}.


(** *** A module that cannot be found, and modules that throw or export oddly *)

Definition nowhere : Host := host [] [] [] [] "/home/u".



Definition exportsEvalError : Host :=
  host [("odd", Returns (VError (Some 9) EvalErrorClass "exported on purpose"))]
    [] [] [] "/home/u".

(** *** A multi-package root at [/pkg] with one sub-package [a] *)

Definition subPackages : Value := VArray (Some 10) [Some (VStr "a")] [].

Definition rootModules : list (string * Outcome Value) :=
  ([ ("/pkg/index.js", Returns subPackages);
     ("/pkg/shim", Returns shim);
     ("/pkg/auto", Returns VUndefined) ]
   ++ package "/pkg/a" "/pkg/a")%list.

Definition rootListing : list (string * list string) :=
  [ ("/pkg", [".git"; "a"; "auto.js"; "index.js"; "node_modules"; "shim.js"; "test"]) ].

(** The validator runs in [/pkg], as it does when the package is found
    through the manifest in the working directory. *)
Definition root : Host :=
  host rootModules packageCalls rootListing
    [ ("a", true); ("auto.js", false); ("index.js", false); ("shim.js", false) ]
    "/pkg".

(** A root whose export has a hole after its one element, as
    [['a', ,]] has. *)
Definition sparseRoot : Host :=
  host (("/pkg/index.js", Returns (VArray (Some 10) [Some (VStr "a"); None] []))
          :: rootModules) packageCalls rootListing
    [ ("a", true); ("auto.js", false); ("index.js", false); ("shim.js", false) ]
    "/pkg".

(** The same root, which also has an [implementation] module. *)
Definition rootWithImplementation : Host :=
  host (("/pkg/implementation", Returns impl) :: rootModules) packageCalls rootListing
    [ ("a", true); ("auto.js", false); ("index.js", false); ("shim.js", false) ]
    "/pkg".

(** The same root, validated by name from [/home/u], a directory that
    has none of the root's entries. *)
Definition rootFromElsewhere : Host :=
  host (("/pkg", Returns subPackages) :: rootModules) packageCalls rootListing
    [ ("/pkg/a", true); ("/pkg/auto.js", false); ("/pkg/index.js", false);
      ("/pkg/shim.js", false) ]
    "/home/u".

(** The same again, from a directory where [a] and the other names
    exist as regular files. *)
Definition rootFromLookalike : Host :=
  host (("/pkg", Returns subPackages) :: rootModules) packageCalls rootListing
    [ ("a", false); ("auto.js", false); ("index.js", false); ("shim.js", false);
      ("/pkg/a", true); ("/pkg/auto.js", false); ("/pkg/index.js", false);
      ("/pkg/shim.js", false) ]
    "/home/u".

End Scenario.

(** ** Further notions for the properties below *)

(** The flags api.js knows (lines 27-31). *)
Definition known_flag (x : string) : bool :=
  existsb (String.eqb x)
    ["--bound"; "--property"; "--skip-shim-returns-polyfill"; "--skip-auto-shim";
     "--multi"].

(** The arguments that are taken for module names (line 36). *)
Definition names_of_args (args : list string) : list string :=
  filter (fun a => negb (isArg a)) args.

(** The name tests of the filter of lines 163-169, without the stat. *)
Definition candidateName (d : string) : bool :=
  negb (prefix "." d)
  && negb (String.eqb d "node_modules")
  && negb (String.eqb d "helpers")
  && negb (String.eqb d "test").

(** Whether the stat of [p], as passed, succeeds and finds a directory. *)
Definition statsAsDirectory (h : Host) (p : string) : bool :=
  match statSync_isDirectory h p with
  | Returns b => b
  | Throws _ => false
  end.

(** Whether a computation returns, whether a run gets to its end, and
    whether a value is [undefined] or [null]. *)
Definition returns {A} (m : M A) : bool :=
  match snd m with
  | Done _ => true
  | Crash _ => false
  end.

Definition runs_to_end (ran : list Line * option Exn) : bool :=
  match snd ran with
  | None => true
  | Some _ => false
  end.

Definition nullish (v : Value) : bool :=
  match v with
  | VUndefined | VNull => true
  | _ => false
  end.




(** A test with callback [cb] runs to its end: the callback does not
    throw, and neither do the tests it queues. *)
Definition callback_ok (cb : M unit) : bool :=
  match crash_of cb with
  | None => runs_to_end (run_queue (fst cb))
  | Some _ => false
  end.

(** The value has no [map] of its own to offer: it is a primitive, or
    a function or an object without a [map] property. *)
Definition has_no_map (v : Value) : bool :=
  match v with
  | VFunction _ ps | VObject _ ps =>
      match lookup "map" ps with None => true | Some _ => false end
  | VArray _ _ _ => false
  | _ => true
  end.


(** The test named [name] was run. *)
Definition has_test (name : string) (ls : list Line) : bool :=
  existsb (fun l => match l with LTest n => String.eqb n name | _ => false end) ls.

(** Every assertion passed. *)
Definition all_pass (ls : list Line) : bool :=
  forallb (fun l => match l with LAssert c _ => passes c | _ => true end) ls.

(** *** More hosts for concrete runs *)

Module More.

(** The root of [Scenario.root], on a host that answers for an entry of
    [/pkg] under its bare name and under its full path alike, as a file
    system does from the working directory [/pkg]. *)
Definition rootInPlace : Host :=
  Scenario.host Scenario.rootModules Scenario.packageCalls Scenario.rootListing
    [ ("a", true); ("auto.js", false); ("index.js", false); ("shim.js", false);
      ("/pkg/a", true); ("/pkg/auto.js", false); ("/pkg/index.js", false);
      ("/pkg/shim.js", false) ]
    "/pkg".

(** The package of [Scenario.goodPackage] without its [polyfill]
    module. *)
Definition noPolyfill : Host :=
  Scenario.host
    [ ("/pkg/index.js", Returns Scenario.main);
      ("/pkg/implementation", Returns Scenario.impl);
      ("/pkg/shim", Returns Scenario.shim);
      ("/pkg/auto", Returns VUndefined) ]
    Scenario.packageCalls [] [] "/pkg".

(** The multi-package root of [/pkg], found through its manifest from
    the working directory [/pkg].  The sub-package [a] is in [/pkg/a]. *)
Definition manifestListing : list (string * list string) :=
  [ ("/pkg", [".git"; "a"; "auto.js"; "index.js"; "node_modules"; "package.json";
              "shim.js"; "test"]) ].

Definition manifestFiles : list (string * bool) :=
  [ ("a", true); ("auto.js", false); ("index.js", false); ("package.json", false);
    ("shim.js", false);
    ("/pkg/a", true); ("/pkg/auto.js", false); ("/pkg/index.js", false);
    ("/pkg/package.json", false); ("/pkg/shim.js", false) ].

(** Its manifest names the entry point: [{ name: 'pkg', main: 'index.js' }]. *)
Definition rootWithMain : Host :=
  Scenario.host
    (("/pkg/package.json",
      Returns (VObject 20 [("name", VStr "pkg"); ("main", VStr "index.js")]))
       :: Scenario.rootModules)
    Scenario.packageCalls manifestListing manifestFiles "/pkg".

(** Its manifest leaves the entry point to the default: [{ name: 'pkg' }];
    the package is then required by its directory. *)
Definition rootWithoutMain : Host :=
  Scenario.host
    (("/pkg/package.json", Returns (VObject 20 [("name", VStr "pkg")]))
       :: ("/pkg", Returns Scenario.subPackages)
       :: Scenario.rootModules)
    Scenario.packageCalls manifestListing manifestFiles "/pkg".

Definition bound : Config :=
  {| isBound := true; isProperty := false; skipShimPolyfill := false;
     skipAutoShim := false; isMulti := false |}.

End More.

(** * Properties *)

(** ** The monad *)

Definition silent {A} (m : M A) : Prop := fst m = [].

Lemma silent_cases {A} (m : M A) :
  silent m -> (exists a, m = ([], Done a)) \/ (exists e, m = ([], Crash e)).
Proof.
  destruct m as [l [a | e]]; unfold silent; simpl; intros ->; eauto.
Qed.

Lemma lift_silent {A} (o : Outcome A) : silent (lift o).
Proof. destruct o; reflexivity. Qed.

Lemma get_prop_silent v k : silent (get_prop v k).
Proof. destruct v; reflexivity. Qed.

Lemma call_value_silent h f : silent (call_value h f).
Proof. destruct f; try reflexivity. apply lift_silent. Qed.

Lemma ToString_silent h v : silent (ToString h v).
Proof. destruct v as [| | [] | | | | | | |]; try reflexivity; apply lift_silent. Qed.

Lemma bind_silent {A B} (m : M A) (k : A -> M B) :
  silent m -> (forall a, silent (k a)) -> silent (bind m k).
Proof.
  intros Hm Hk. destruct (silent_cases m Hm) as [[a ->] | [e ->]]; [| reflexivity].
  unfold bind. specialize (Hk a). destruct (k a) as [l r]. exact Hk.
Qed.

Lemma new_EvalError_silent h m : silent (new_EvalError h m).
Proof.
  destruct m; try reflexivity;
    (apply bind_silent; [apply ToString_silent | reflexivity]).
Qed.

Lemma requireOrEvalError_silent h name : silent (requireOrEvalError h name).
Proof.
  unfold requireOrEvalError.
  destruct (require h name) as [v | e]; [reflexivity |].
  apply bind_silent; [apply get_prop_silent | apply new_EvalError_silent].
Qed.

(** Case analysis on a computation that logs nothing. *)
Ltac case_silent c lem :=
  let a := fresh "a" in
  let e := fresh "e" in
  let E := fresh "E" in
  destruct (silent_cases c lem) as [[a E] | [e E]]; rewrite E in *.

Lemma bind_done {A B} (a : A) (k : A -> M B) : bind ([], Done a) k = k a.
Proof. unfold bind. destruct (k a). reflexivity. Qed.

Lemma bind_ret {A B} (a : A) (k : A -> M B) : bind (ret a) k = k a.
Proof. apply bind_done. Qed.

Lemma bind_crash {A B} (e : Exn) (k : A -> M B) : bind ([], Crash e) k = ([], Crash e).
Proof. reflexivity. Qed.

Lemma bind_emit {B} (r : Record) (k : unit -> M B) :
  bind (emit r) k = (r :: fst (k tt), snd (k tt)).
Proof. unfold bind, emit. destruct (k tt). reflexivity. Qed.

(** ** The harness *)

Lemma run_test_queue name body :
  run_test (Test name false body None) =
  ((LTest name :: own_lines body ++ fst (run_queue body))%list, snd (run_queue body)).
Proof.
  simpl.
  match goal with
  | |- (let '(ls, c) := ?f body in _) = _ =>
      assert (Hq : forall rs, f rs = run_queue rs)
  end.
  { induction rs as [| r rs IH]; simpl; [reflexivity |].
    destruct (run_test r) as [ls [e |]]; [reflexivity |].
    rewrite IH. reflexivity. }
  rewrite Hq. destruct (run_queue body). reflexivity.
Qed.

Lemma all_lines_of_test name body crash :
  all_lines_of (Test name false body crash) =
  (LTest name :: own_lines body ++ all_lines body)%list.
Proof.
  reflexivity.
Qed.

(** Induction over a test and the tests queued inside it. *)
Fixpoint Record_nested_ind (P : Record -> Prop)
    (Hleaf : forall r, (forall n s b c, r <> Test n s b c) -> P r)
    (Htest : forall n s b c, Forall P b -> P (Test n s b c))
    (r : Record) {struct r} : P r.
Proof.
  destruct r as [m | c m | n | | c a d s | k | n s b c];
    try (apply Hleaf; intros; discriminate).
  apply Htest.
  induction b as [| r rs IH]; constructor.
  - apply (Record_nested_ind P Hleaf Htest).
  - exact IH.
Defined.

(** A run agrees with [all_lines]: its transcript is a prefix of it,
    and all of it when nothing throws. *)
Definition agrees (ran : list Line * option Exn) (all : list Line) : Prop :=
  (exists more, all = (fst ran ++ more)%list) /\ (snd ran = None -> fst ran = all).

Lemma run_queue_agrees_from rs :
  Forall (fun r => agrees (run_test r) (all_lines_of r)) rs ->
  agrees (run_queue rs) (all_lines rs).
Proof.
  induction 1 as [| r rs [[more Hmore] Hall] _ [[more' Hmore'] Hall']]; simpl.
  - split; [exists []; reflexivity | reflexivity].
  - destruct (run_test r) as [ls [e |]]; simpl in *.
    + split; [| discriminate].
      exists (more ++ all_lines rs)%list. rewrite Hmore, app_assoc. reflexivity.
    + destruct (run_queue rs) as [ls' c]; simpl in *.
      rewrite <- (Hall eq_refl). split; simpl.
      * exists more'. rewrite Hmore', app_assoc. reflexivity.
      * intros Hc. rewrite (Hall' Hc). reflexivity.
Qed.

Lemma run_test_agrees r : agrees (run_test r) (all_lines_of r).
Proof.
  induction r as [r Hleaf | n s b c IH] using Record_nested_ind.
  - destruct r; try (split; [exists []; reflexivity | reflexivity]).
    exfalso. eapply Hleaf. reflexivity.
  - destruct s.
    + split; [exists []; reflexivity | reflexivity].
    + rewrite all_lines_of_test. destruct c as [e |].
      * simpl. split; [| discriminate].
        exists (all_lines b). rewrite app_comm_cons. reflexivity.
      * rewrite run_test_queue.
        destruct (run_queue_agrees_from b IH) as [[more Hmore] Hall]. simpl. split.
        -- exists more. rewrite Hmore, app_assoc. reflexivity.
        -- intros Hc. rewrite (Hall Hc). reflexivity.
Qed.

Lemma run_queue_agrees rs : agrees (run_queue rs) (all_lines rs).
Proof.
  apply run_queue_agrees_from, Forall_forall. intros r _. apply run_test_agrees.
Qed.

(** What a transcript lacks when [all_lines] lacks it. *)
Lemma run_queue_lacks (p : Line -> bool) rs :
  existsb p (all_lines rs) = false -> existsb p (fst (run_queue rs)) = false.
Proof.
  destruct (run_queue_agrees rs) as [[more ->] _].
  rewrite existsb_app. intros H. apply orb_false_iff in H. apply H.
Qed.

Lemma run_queue_complete rs ls :
  run_queue rs = (ls, None) -> ls = all_lines rs.
Proof.
  intros H. destruct (run_queue_agrees rs) as [_ Hall].
  rewrite H in Hall. apply Hall. reflexivity.
Qed.

(** ** The module loader (lines 52-58) *)

Lemma requireOrEvalError_returns h name v :
  require h name = Returns v -> requireOrEvalError h name = ([], Done v).
Proof. unfold requireOrEvalError. intros ->. reflexivity. Qed.

Lemma requireOrEvalError_error h name r cls msg :
  require h name = Throws (VError r cls msg) ->
  requireOrEvalError h name = ([], Done (VError None EvalErrorClass msg)).
Proof. unfold requireOrEvalError. intros ->. reflexivity. Qed.





(** ** A failed load of the main module (lines 76-79, 150-153, 184, 195) *)

(** The validator cannot tell a module that exports an [EvalError] from
    one that failed to load with the same message. *)
Lemma loaded_EvalError_is_load_failure h name r r' cls msg :
  require h name = Returns (VError r EvalErrorClass msg) ->
  forall h', require h' name = Throws (VError r' cls msg) ->
  instanceof_EvalError (VError r EvalErrorClass msg) = true /\
  exists v v',
    requireOrEvalError h name = ([], Done v) /\
    requireOrEvalError h' name = ([], Done v') /\
    instanceof_EvalError v = instanceof_EvalError v' /\
    passes (NoError v) = passes (NoError v').
Proof.
  intros H h' H'. split; [reflexivity |].
  rewrite (requireOrEvalError_returns _ _ _ H), (requireOrEvalError_error _ _ _ _ _ H').
  do 2 eexists. repeat split.
Qed.

(** In multi mode a root whose load gives an [EvalError] ends the unit
    with a failed "expected no error" and nothing else. *)
Lemma multi_load_failure_reported h cfg nf name r msg :
  isMulti cfg = true ->
  name = name_of nf ->
  requireOrEvalError h name = ([], Done (VError r EvalErrorClass msg)) ->
  moduleCallback h cfg nf =
    ([ Comment "* ----------------------------- * #";
       Assert (NoError (VError r EvalErrorClass msg)) "expected no error";
       End ], Done tt) /\
  passes (NoError (VError r EvalErrorClass msg)) = false.
Proof.
  intros Hm -> H. split; [| reflexivity].
  unfold moduleCallback, validateModule. rewrite Hm, H. reflexivity.
Qed.

(** Not so in single mode: [validateModule] drops what [doValidation]
    returns (line 184), so the unit ends with a passed "expected no
    error" and nothing else. *)
Lemma single_load_failure_dropped h cfg nf name r msg :
  isMulti cfg = false ->
  name = name_of nf ->
  requireOrEvalError h name = ([], Done (VError r EvalErrorClass msg)) ->
  moduleCallback h cfg nf =
    ([ Comment "* ----------------------------- * #";
       Assert (NoError VUndefined) "expected no error";
       End ], Done tt) /\
  passes (NoError VUndefined) = true.
Proof.
  intros Hm -> H. split; [| reflexivity].
  unfold moduleCallback, validateModule, doValidation. rewrite Hm, H. reflexivity.
Qed.

(** C6 at a module that cannot be found, in single mode: the loader
    turns the failure into an [EvalError], yet the unit reports a passed
    "expected no error" (the value asserted is [undefined]); no check
    runs and nothing aborts. *)
Theorem load_failure_unreported_in_single_mode :
  requireOrEvalError Scenario.nowhere "missing" =
    ([], Done (VError None EvalErrorClass "Cannot find module 'missing'")) /\
  transcript Scenario.nowhere Scenario.single [("missing", Name "missing")] =
    ([ LTest "es-shim API : testing module: missing";
       LComment "* ----------------------------- * #";
       LAssert (NoError VUndefined) "expected no error";
       LEnd ], None) /\
  passes (NoError VUndefined) = true.
Proof. repeat split. Qed.

(** C10 at a module that loads and exports an [EvalError]: in multi
    mode the unit reports a failed "expected no error" and runs nothing
    else, as the claim says; in single mode it runs nothing else either
    but reports the assertion as passed. *)
Theorem exported_EvalError_unreported_in_single_mode :
  require Scenario.exportsEvalError "odd" =
    Returns (VError (Some 9) EvalErrorClass "exported on purpose") /\
  transcript Scenario.exportsEvalError Scenario.multi [("odd", Name "odd")] =
    ([ LTest "es-shim API : testing module: odd";
       LComment "* ----------------------------- * #";
       LAssert (NoError (VError (Some 9) EvalErrorClass "exported on purpose"))
         "expected no error";
       LEnd ], None) /\
  passes (NoError (VError (Some 9) EvalErrorClass "exported on purpose")) = false /\
  transcript Scenario.exportsEvalError Scenario.single [("odd", Name "odd")] =
    ([ LTest "es-shim API : testing module: odd";
       LComment "* ----------------------------- * #";
       LAssert (NoError VUndefined) "expected no error";
       LEnd ], None) /\
  passes (NoError VUndefined) = true.
Proof. repeat split. Qed.

(** ** The root checks of multi mode (lines 155-177) *)

(** C3 at a multi-package root that does have an [implementation]
    module: the validator asks [require] for ["./implementation"], which
    resolves next to api.js and not in the root under validation, the
    load fails and "root lacks an implementation module" passes. *)
Theorem root_implementation_looked_up_beside_validator :
  require Scenario.rootWithImplementation "/pkg/implementation" = Returns Scenario.impl /\
  requireOrEvalError Scenario.rootWithImplementation "./implementation" =
    ([], Done (VError None EvalErrorClass "Cannot find module './implementation'")) /\
  snd (transcript Scenario.rootWithImplementation Scenario.multi
         [("pkg (current directory)", FilePaths "/pkg/index.js" "/pkg")]) = None /\
  outcome_of "root lacks an `implementation` module"
    (fst (transcript Scenario.rootWithImplementation Scenario.multi
            [("pkg (current directory)", FilePaths "/pkg/index.js" "/pkg")])) = Some true.
Proof. repeat split. Qed.

(** Whatever the package directory, the last root check asserts whether
    the load of ["./implementation"] failed. *)
Lemma root_implementation_check_ignores_root h cfg packageDir subPackages elems props l :
  rootChecks h cfg packageDir subPackages elems props = (l, Done tt) ->
  exists i,
    requireOrEvalError h "./implementation" = ([], Done i) /\
    In (Assert (Ok (VBool (instanceof_EvalError i)))
          "root lacks an `implementation` module") l.
Proof.
  unfold rootChecks. rewrite !bind_emit. simpl fst. simpl snd.
  case_silent (lift (readdirSync h packageDir)) (lift_silent (readdirSync h packageDir));
    [| discriminate].
  rewrite bind_done.
  destruct (filterM (isSubPackageDir h) a) as [fl [dirs | e]] eqn:Ef; simpl;
    [| discriminate].
  case_silent (requireOrEvalError h (packageDir ++ "/shim"))
    (requireOrEvalError_silent h (packageDir ++ "/shim")); [| simpl; discriminate].
  case_silent (requireOrEvalError h "./implementation")
    (requireOrEvalError_silent h "./implementation"); simpl; [| discriminate].
  intros H. injection H as <-. exists a1. split; [reflexivity |].
  do 2 right. apply in_or_app. right. simpl. auto 10.
Qed.

(** Where the working directory is the package directory (a bare entry
    name then names the entry of the package directory) and every
    candidate can be statted, the filter of lines 163-169 computes the
    eligible sub-directories of the package directory. *)
Lemma dirs_in_working_directory h packageDir entries :
  (forall d, In d entries ->
     exists b, statSync_isDirectory h d = Returns b /\
               statSync_isDirectory h (path_join h packageDir d) = Returns b) ->
  filterM (isSubPackageDir h) entries = ([], Done (eligibleSubDirs h packageDir entries)).
Proof.
  induction entries as [| d ds IH]; intros H; [reflexivity |].
  simpl. rewrite IH by (intros d' Hd'; apply H; right; exact Hd').
  destruct (H d (or_introl eq_refl)) as [b [Hb Hb']].
  unfold isSubPackageDir, isDirectoryOf. rewrite Hb, Hb'.
  destruct (negb (prefix "." d) && negb (d =? "node_modules")
            && negb (d =? "helpers") && negb (d =? "test"))%bool;
    simpl; [destruct b |]; reflexivity.
Qed.

(** C1 at the root of [/pkg], which declares [a] and whose one eligible
    sub-directory is [a], validated by name from another working
    directory.  The validator stats the bare entry name, which the host
    resolves in the working directory.  Where that directory has no
    entry [a], the stat throws and the run dies before "main export
    subpackages matches dirs in the package root" is asserted; where it
    has a regular file [a], the assertion is made against an empty list
    and fails.  Run from [/pkg] itself, the same package passes. *)
Theorem sub_directories_statted_in_working_directory :
  let entries := [".git"; "a"; "auto.js"; "index.js"; "node_modules"; "shim.js"; "test"] in
  let msg := "main export subpackages matches dirs in the package root" in
  (require Scenario.rootFromElsewhere "/pkg" = Returns (VArray (Some 10) [Some (VStr "a")] []) /\
   readdirSync Scenario.rootFromElsewhere "/pkg" = Returns entries /\
   eligibleSubDirs Scenario.rootFromElsewhere "/pkg" entries = ["a"] /\
   snd (transcript Scenario.rootFromElsewhere Scenario.multi [("/pkg", Name "/pkg")]) =
     Some (Thrown (Scenario.notFound "ENOENT: no such file or directory, stat 'a'")) /\
   has_assert msg
     (fst (transcript Scenario.rootFromElsewhere Scenario.multi [("/pkg", Name "/pkg")]))
     = false) /\
  (eligibleSubDirs Scenario.rootFromLookalike "/pkg" entries = ["a"] /\
   filterM (isSubPackageDir Scenario.rootFromLookalike) entries = ([], Done []) /\
   outcome_of msg
     (fst (transcript Scenario.rootFromLookalike Scenario.multi [("/pkg", Name "/pkg")]))
     = Some false) /\
  outcome_of msg
    (fst (transcript Scenario.root Scenario.multi
            [("pkg (current directory)", FilePaths "/pkg/index.js" "/pkg")]))
    = Some true.
Proof. repeat split. Qed.

(** *** The keys of the main export (lines 156-160) *)

Lemma index_keys_none i es :
  index_keys_from i es = [] <-> forallb is_hole es = true.
Proof.
  revert i. induction es as [| [v |] es IH]; intros i; simpl.
  - tauto.
  - split; discriminate.
  - apply IH.
Qed.

Lemma Array_map_holes f i es :
  forallb is_hole (Array_map_from f i es) = forallb is_hole es.
Proof.
  revert i. induction es as [| [v |] es IH]; intros i; simpl; auto.
Qed.

Lemma elems_equal_strings_nil ss :
  elems_equal deep_equal (map (fun s => Some (VStr s)) ss) [] = true <-> ss = [].
Proof. destruct ss; simpl; split; congruence. Qed.

Lemma elems_equal_strings_hole ss ys :
  elems_equal deep_equal (map (fun s => Some (VStr s)) ss) (None :: ys) = true <->
  ss = [] /\ forallb is_hole ys = true.
Proof.
  destruct ss; simpl; split; try tauto.
  - discriminate.
  - intros [H _]; discriminate.
Qed.

Lemma keys_against_indices i es ks :
  elems_equal deep_equal
    (map (fun s => Some (VStr s)) (index_keys_from i es ++ ks)%list)
    (Array_map_from (fun _ j => VStr (String_of_index j)) i es) = true <->
  ks = [] /\ dense_then_holes es = true.
Proof.
  revert i. induction es as [| [v |] es IH]; intros i.
  - simpl. rewrite elems_equal_strings_nil. tauto.
  - simpl. rewrite String.eqb_refl. simpl. apply IH.
  - simpl Array_map_from. simpl index_keys_from. simpl dense_then_holes.
    rewrite elems_equal_strings_hole, Array_map_holes.
    split.
    + intros [H Hh]. apply app_eq_nil in H. tauto.
    + intros [-> Hh]. split; [| exact Hh].
      apply (index_keys_none (S i)) in Hh. rewrite Hh. reflexivity.
Qed.

Lemma holes_repeat k : forallb is_hole (repeat (@None Value) k) = true.
Proof. induction k; simpl; auto. Qed.

Lemma all_holes_repeat es :
  forallb is_hole es = true -> es = repeat None (length es).
Proof.
  induction es as [| [w |] es IH]; simpl; intros H; try discriminate; [reflexivity |].
  f_equal. apply IH. exact H.
Qed.

Lemma dense_then_holes_shape es :
  dense_then_holes es = true <->
  exists vs k, es = (map Some vs ++ repeat None k)%list.
Proof.
  induction es as [| [v |] es IH]; simpl.
  - split; [exists [], 0; reflexivity | reflexivity].
  - rewrite IH. split.
    + intros (vs & k & ->). exists (v :: vs), k. reflexivity.
    + intros (vs & k & H). destruct vs as [| w vs]; simpl in H.
      * destruct k; discriminate.
      * injection H as _ ->. eauto.
  - split.
    + intros H. exists [], (S (length es)). simpl. f_equal.
      apply all_holes_repeat, H.
    + intros (vs & k & H). destruct vs as [| w vs]; simpl in H; [| discriminate].
      destruct k; simpl in H; [discriminate |]. injection H as ->.
      apply holes_repeat.
Qed.

Lemma index_keys_dense i vs k :
  index_keys_from i (map Some vs ++ repeat None k)%list =
  map String_of_index (seq i (length vs)).
Proof.
  revert i. induction vs as [| v vs IH]; intros i; simpl.
  - apply index_keys_none, holes_repeat.
  - rewrite IH. reflexivity.
Qed.

(** C9, as the code has it.  "main export has no additional properties"
    passes exactly when the export has no enumerable property besides
    its elements and no hole below an element: its elements sit at the
    indices 0 to k-1 and whatever follows is holes.  Its enumerable
    keys are then exactly the index strings of 0 to k-1, in order. *)
Theorem keysCheck_passes_iff (elems : list (option Value))
    (props : list (string * Value)) :
  passes (keysCheck elems props) = true <->
  props = [] /\
  exists vs k,
    elems = (map Some vs ++ repeat None k)%list /\
    Object_keys elems props = map String_of_index (seq 0 (length vs)).
Proof.
  unfold keysCheck, passes, array_of_strings, Object_keys. simpl deep_equal.
  rewrite !andb_true_r, keys_against_indices, dense_then_holes_shape.
  split.
  - intros [Hp (vs & k & ->)]. destruct props; [| discriminate].
    split; [reflexivity |]. exists vs, k. split; [reflexivity |].
    simpl. rewrite app_nil_r. apply index_keys_dense.
  - intros [-> (vs & k & -> & _)]. split; [reflexivity | eauto].
Qed.

(** C9 as stated fails: an export with an element and then a hole is
    sparse (its length is 2, its only key is ["0"]), and "main export
    has no additional properties" passes on it. *)
Lemma keysCheck_passes_on_trailing_hole :
  require Scenario.sparseRoot "/pkg/index.js" =
    Returns (VArray (Some 10) [Some (VStr "a"); None] []) /\
  Object_keys [Some (VStr "a"); None] [] = ["0"] /\
  length [Some (VStr "a"); @None Value] = 2 /\
  passes (keysCheck [Some (VStr "a"); None] []) = true /\
  outcome_of "main export has no additional properties"
    (fst (transcript Scenario.sparseRoot Scenario.multi
            [("pkg (current directory)", FilePaths "/pkg/index.js" "/pkg")])) = Some true.
Proof. repeat split. Qed.

(** A hole below an element, or one more enumerable property, and the
    assertion fails. *)
Lemma keysCheck_fails_on_gap_and_on_extra_property :
  passes (keysCheck [Some (VStr "a"); None; Some (VStr "c")] []) = false /\
  passes (keysCheck [Some (VStr "a")] [("extra", VNum 1)]) = false.
Proof. split; reflexivity. Qed.

(** ** The side-effect probe (lines 59-75) *)

(** C8.  When the probe is not skipped and the auto entry point loads,
    the test [testAuto] queues spawns one process: the multi-package or
    the single-package probe script from the validator's own directory,
    according to [asMulti], without arguments, with the package
    directory as working directory and the standard streams inherited.
    It plans one assertion and makes none of its own: the one assertion
    is made by the listener for the process's [close] event, and it
    passes exactly when the exit code is [0]. *)
Theorem probe_spawned_and_asserted_on_close (h : Host) (cfg : Config)
    (prefix packageDir : string) (asMulti : bool) (v : Value) :
  skipAutoShim cfg = false ->
  require h (path_join h packageDir "/auto") = Returns v ->
  exists listener,
    testAuto h cfg prefix packageDir asMulti =
      ([ Test (prefix ++ "auto") false
           [ Comment "auto is present (pass `--skip-auto-shim` to skip this test)";
             Spawn (path_join h (dirname_ h)
                      (if asMulti then "multiAutoTest.js" else "autoTest.js"))
               [] packageDir "inherit";
             Plan 1;
             OnClose listener ]
           None ], Done tt) /\
    forall code,
      listener code = [Assert (Equal code (VNum 0)) "auto invokes shim"] /\
      (passes (Equal code (VNum 0)) = true <-> code = VNum 0).
Proof.
  intros Hskip Hauto. eexists. split.
  - unfold testAuto, autoCallback, t_test. rewrite Hskip, Hauto. reflexivity.
  - intros code. split; [reflexivity |].
    simpl. split.
    + destruct code; simpl; try discriminate.
      intros H. apply Z.eqb_eq in H. congruence.
    + intros ->. reflexivity.
Qed.

Lemma probe_spawned_and_asserted_on_close_witness :
  skipAutoShim Scenario.multi = false /\
  require Scenario.root (path_join Scenario.root "/pkg" "/auto") = Returns VUndefined /\
  exists listener,
    testAuto Scenario.root Scenario.multi "root: " "/pkg" true =
      ([ Test "root: auto" false
           [ Comment "auto is present (pass `--skip-auto-shim` to skip this test)";
             Spawn "/usr/lib/node_modules/@es-shims/api/multiAutoTest.js"
               [] "/pkg" "inherit";
             Plan 1;
             OnClose listener ]
           None ], Done tt) /\
    forall code,
      listener code = [Assert (Equal code (VNum 0)) "auto invokes shim"] /\
      (passes (Equal code (VNum 0)) = true <-> code = VNum 0).
Proof.
  split; [reflexivity |]. split; [reflexivity |].
  apply (probe_spawned_and_asserted_on_close Scenario.root Scenario.multi
           "root: " "/pkg" true VUndefined); reflexivity.
Defined.

(** The probe of a package validated by [doValidation] is the
    single-package one, also for the sub-packages of multi mode; the
    probe of the root of multi mode is the multi-package one. *)
Lemma probe_scripts_by_call_site h cfg packageDir module implementation shim getPolyfill
    subPackages elems props :
  (exists p, nth_error (battery h cfg packageDir module implementation shim getPolyfill) 4
             = Some (Test (p ++ "auto") false
                       (fst (autoCallback h cfg packageDir false))
                       (crash_of (autoCallback h cfg packageDir false)))) /\
  (forall l, rootChecks h cfg packageDir subPackages elems props = (l, Done tt) ->
     In (Test "root: auto" false
           (fst (autoCallback h cfg packageDir true))
           (crash_of (autoCallback h cfg packageDir true))) l).
Proof.
  split; [eexists; reflexivity |].
  unfold rootChecks. intros l.
  rewrite !bind_emit. simpl fst. simpl snd.
  case_silent (lift (readdirSync h packageDir)) (lift_silent (readdirSync h packageDir));
    [| discriminate].
  rewrite bind_done.
  destruct (filterM (isSubPackageDir h) a) as [fl [dirs | e]] eqn:Ef; simpl;
    [| discriminate].
  case_silent (requireOrEvalError h (packageDir ++ "/shim"))
    (requireOrEvalError_silent h (packageDir ++ "/shim")); [| simpl; discriminate].
  case_silent (requireOrEvalError h "./implementation")
    (requireOrEvalError_silent h "./implementation"); simpl; [| discriminate].
  intros H. injection H as <-.
  do 2 right. apply in_or_app. right. simpl. auto 10.
Qed.

(** ** The sub-packages of multi mode (lines 179-182) *)

Lemma validateSubPackage_string h cfg name n :
  validateSubPackage h cfg name (VStr n) =
  (fst (doValidation h cfg (path_join h (path_dirname h name) n)
          (path_join h (path_dirname h name) n)),
   match snd (doValidation h cfg (path_join h (path_dirname h name) n)
                (path_join h (path_dirname h name) n)) with
   | Done _ => Done tt
   | Crash e => Crash e
   end).
Proof.
  unfold validateSubPackage, path_join_value. rewrite bind_ret.
  destruct (doValidation _ _ _ _) as [l [v | e]]; simpl; [| reflexivity].
  rewrite app_nil_r. reflexivity.
Qed.

(** The loop visits the declared names in order and stops at the first
    sub-package whose validation throws. *)
Lemma forEach_subPackages h cfg name names :
  (forall n, In n names ->
     exists v, snd (doValidation h cfg (path_join h (path_dirname h name) n)
                      (path_join h (path_dirname h name) n)) = Done v) ->
  Array_forEach (validateSubPackage h cfg name) (map (fun n => Some (VStr n)) names) =
  (flat_map
     (fun n => fst (doValidation h cfg (path_join h (path_dirname h name) n)
                      (path_join h (path_dirname h name) n)))
     names, Done tt).
Proof.
  induction names as [| n names IH]; intros H; [reflexivity |].
  simpl. rewrite validateSubPackage_string.
  destruct (H n (or_introl eq_refl)) as [v Hv]. rewrite Hv.
  rewrite IH by (intros n' Hn'; apply H; right; exact Hn').
  reflexivity.
Qed.

(** The loop in general.  In multi mode, once the root has loaded as an array of names
    and the root checks are through, the validator goes through the
    declared names in order and runs [doValidation] for each with, as
    package directory and as module to load, the directory of the main
    module's path joined with the name.  What it logs after the root
    checks is exactly what those runs log, one after the other. *)
Theorem sub_packages_validated_beside_main (h : Host) (cfg : Config)
    (nf : NameOrFilePaths) (r : Ref) (names : list string)
    (props : list (string * Value)) (rootlog : list Record) :
  let subPackages := VArray r (map (fun n => Some (VStr n)) names) props in
  let subPackageDir n := path_join h (path_dirname h (name_of nf)) n in
  isMulti cfg = true ->
  requireOrEvalError h (name_of nf) = ([], Done subPackages) ->
  rootChecks h cfg (packageDir_of nf) subPackages
    (map (fun n => Some (VStr n)) names) props = (rootlog, Done tt) ->
  (forall n, In n names ->
     exists v, snd (doValidation h cfg (subPackageDir n) (subPackageDir n)) = Done v) ->
  validateModule h cfg nf =
    ((Assert (Ok (VBool true)) "main export is an array of sub packages" :: rootlog ++
        flat_map (fun n => fst (doValidation h cfg (subPackageDir n) (subPackageDir n)))
          names)%list,
     Done VUndefined).
Proof.
  intros subPackages subPackageDir Hm Hload Hroot Hsub.
  unfold validateModule. rewrite Hm, Hload. rewrite bind_done.
  change (instanceof_EvalError subPackages) with false. cbv iota.
  unfold t_ok. rewrite bind_emit.
  change (match subPackages with
          | VArray _ elems props0 =>
              rootChecks h cfg (packageDir_of nf) subPackages elems props0 ;;
              Array_forEach (validateSubPackage h cfg (name_of nf)) elems ;;
              ret VUndefined
          | _ => throw (TypeError "subPackages.map is not a function")
          end)
    with (rootChecks h cfg (packageDir_of nf) subPackages
            (map (fun n => Some (VStr n)) names) props ;;
          Array_forEach (validateSubPackage h cfg (name_of nf))
            (map (fun n => Some (VStr n)) names) ;;
          ret VUndefined).
  rewrite Hroot, (forEach_subPackages h cfg (name_of nf) names Hsub).
  simpl. rewrite app_nil_r. reflexivity.
Qed.

Lemma sub_packages_validated_beside_main_witness :
  let nf := FilePaths "/pkg/index.js" "/pkg" in
  let subPackages := VArray (Some 10) (map (fun n => Some (VStr n)) ["a"]) [] in
  isMulti Scenario.multi = true /\
  requireOrEvalError Scenario.root (name_of nf) = ([], Done subPackages) /\
  snd (rootChecks Scenario.root Scenario.multi (packageDir_of nf) subPackages
         (map (fun n => Some (VStr n)) ["a"]) []) = Done tt /\
  path_join Scenario.root (path_dirname Scenario.root (name_of nf)) "a" = "/pkg/a" /\
  validateModule Scenario.root Scenario.multi nf =
    ((Assert (Ok (VBool true)) "main export is an array of sub packages"
        :: fst (rootChecks Scenario.root Scenario.multi (packageDir_of nf) subPackages
                  (map (fun n => Some (VStr n)) ["a"]) [])
        ++ fst (doValidation Scenario.root Scenario.multi "/pkg/a" "/pkg/a"))%list,
     Done VUndefined).
Proof.
  intros nf subPackages.
  split; [reflexivity |]. split; [reflexivity |]. split; [reflexivity |].
  split; [reflexivity |].
  rewrite (sub_packages_validated_beside_main Scenario.root Scenario.multi nf
             (Some 10) ["a"] []
             (fst (rootChecks Scenario.root Scenario.multi (packageDir_of nf) subPackages
                     (map (fun n => Some (VStr n)) ["a"]) []))).
  - reflexivity.
  - reflexivity.
  - reflexivity.
  - reflexivity.
  - intros n [<- | []]. eexists. reflexivity.
Defined.

(** C4 at a multi-package root whose manifest has no [main].  The
    name handed to [require] is then the package directory itself, its
    directory part is the parent of the package, and the sub-package
    [a], which sits in [/pkg/a] beside the main module [/pkg/index.js],
    is looked for in [/a]: its load fails, the loop drops the failure,
    and the run ends with every assertion passed and no test of [a]
    run.  With [main] in the manifest the same package has its
    sub-package validated in [/pkg/a]. *)
Theorem sub_package_sought_beside_package_directory :
  let without := More.rootWithoutMain in
  let ran := transcript without Scenario.multi
               [("pkg (current directory)", FilePaths "/pkg" "/pkg")] in
  (moduleNames without ["--multi"] =
     Start [("pkg (current directory)", FilePaths "/pkg" "/pkg")] /\
   require without "/pkg" = Returns (VArray (Some 10) [Some (VStr "a")] []) /\
   require without "/pkg/a" = Returns Scenario.main /\
   path_join without (path_dirname without "/pkg") "a" = "/a" /\
   validateSubPackage without Scenario.multi "/pkg" (VStr "a") = ([], Done tt) /\
   api without ["--multi"] =
     inr (testModules without Scenario.multi
            [("pkg (current directory)", FilePaths "/pkg" "/pkg")]) /\
   snd ran = None /\
   all_pass (fst ran) = true /\
   has_test "a: export" (fst ran) = false) /\
  (moduleNames More.rootWithMain ["--multi"] =
     Start [("pkg (current directory)", FilePaths "/pkg/index.js" "/pkg")] /\
   path_join More.rootWithMain (path_dirname More.rootWithMain "/pkg/index.js") "a"
     = "/pkg/a" /\
   has_test "a: export"
     (fst (transcript More.rootWithMain Scenario.multi
             [("pkg (current directory)", FilePaths "/pkg/index.js" "/pkg")])) = true).
Proof. repeat split. Qed.

(** ** The single-package battery (lines 76-141) *)

(** [doValidation] either logs nothing (the main module did not load,
    or a load threw) or queues the battery. *)
Lemma doValidation_log h cfg packageDir name :
  fst (doValidation h cfg packageDir name) = [] \/
  exists module implementation shim getPolyfill,
    requireOrEvalError h name = ([], Done module) /\
    instanceof_EvalError module = false /\
    requireOrEvalError h (packageDir ++ "/implementation") = ([], Done implementation) /\
    requireOrEvalError h (packageDir ++ "/shim") = ([], Done shim) /\
    requireOrEvalError h (packageDir ++ "/polyfill") = ([], Done getPolyfill) /\
    doValidation h cfg packageDir name =
      (battery h cfg packageDir module implementation shim getPolyfill, Done VUndefined).
Proof.
  unfold doValidation.
  case_silent (requireOrEvalError h name) (requireOrEvalError_silent h name);
    [| left; reflexivity].
  rewrite bind_done.
  destruct (instanceof_EvalError a) eqn:Hi; [left; reflexivity |].
  case_silent (requireOrEvalError h (packageDir ++ "/implementation"))
    (requireOrEvalError_silent h (packageDir ++ "/implementation"));
    [| left; reflexivity].
  rewrite bind_done.
  case_silent (requireOrEvalError h (packageDir ++ "/shim"))
    (requireOrEvalError_silent h (packageDir ++ "/shim"));
    [| left; reflexivity].
  rewrite bind_done.
  case_silent (requireOrEvalError h (packageDir ++ "/polyfill"))
    (requireOrEvalError_silent h (packageDir ++ "/polyfill"));
    [| left; reflexivity].
  rewrite bind_done.
  right. exists a, a0, a1, a2. repeat split; try assumption.
Qed.

(** It returns [undefined] only in the second case. *)
Lemma doValidation_undefined h cfg packageDir name log :
  doValidation h cfg packageDir name = (log, Done VUndefined) ->
  exists module implementation shim getPolyfill,
    requireOrEvalError h (packageDir ++ "/shim") = ([], Done shim) /\
    log = battery h cfg packageDir module implementation shim getPolyfill.
Proof.
  intros H. unfold doValidation in H.
  case_silent (requireOrEvalError h name) (requireOrEvalError_silent h name);
    [| discriminate].
  rewrite bind_done in H.
  destruct (instanceof_EvalError a) eqn:Hi.
  { injection H as _ ->. discriminate. }
  case_silent (requireOrEvalError h (packageDir ++ "/implementation"))
    (requireOrEvalError_silent h (packageDir ++ "/implementation"));
    [| discriminate].
  rewrite bind_done in H.
  case_silent (requireOrEvalError h (packageDir ++ "/shim"))
    (requireOrEvalError_silent h (packageDir ++ "/shim"));
    [| discriminate].
  rewrite bind_done in H.
  case_silent (requireOrEvalError h (packageDir ++ "/polyfill"))
    (requireOrEvalError_silent h (packageDir ++ "/polyfill"));
    [| discriminate].
  rewrite bind_done in H. injection H as <-.
  exists a, a0, a1, a2. split; reflexivity.
Qed.

Lemma existsb_battery (p : Line -> bool) h cfg packageDir module implementation
    shim getPolyfill :
  (forall n, p (LTest n) = false) ->
  existsb p (all_lines (battery h cfg packageDir module implementation shim getPolyfill)) =
  existsb p (callback_lines (exportCallback h cfg module getPolyfill))
  || existsb p (callback_lines (implementationCallback cfg module implementation))
  || existsb p (callback_lines (polyfillCallback cfg module getPolyfill))
  || existsb p (callback_lines (shimCallback h cfg module shim getPolyfill))
  || existsb p (callback_lines (autoCallback h cfg packageDir false)).
Proof.
  intros Hp. unfold battery. cbn [all_lines].
  rewrite !all_lines_of_test.
  repeat (rewrite existsb_app || (cbn [existsb]; rewrite Hp; cbn [orb])).
  unfold callback_lines. rewrite !existsb_app, orb_false_r, !orb_assoc. reflexivity.
Qed.

(** When the queue ran to its end, no callback in it threw. *)
Lemma run_queue_no_crash rs ls :
  run_queue rs = (ls, None) ->
  forall n b c, In (Test n false b c) rs -> c = None.
Proof.
  revert ls. induction rs as [| r rs IH]; intros ls H n b c Hin; [destruct Hin |].
  simpl in H. destruct (run_test r) as [l1 [e |]] eqn:Er; [discriminate |].
  destruct (run_queue rs) as [l2 c2]. injection H as _ ->.
  destruct Hin as [-> | Hin].
  - destruct c as [e |]; [| reflexivity]. simpl in Er. discriminate.
  - eapply IH; eauto.
Qed.

(** Splitting on everything a callback asks of the host. *)
Ltac split_silent :=
  repeat match goal with
  | |- context [get_prop ?v ?k] =>
      case_silent (get_prop v k) (get_prop_silent v k)
  | |- context [call_value ?h ?f] =>
      case_silent (call_value h f) (call_value_silent h f)
  | |- context [lift ?o] =>
      case_silent (lift o) (lift_silent o)
  | |- context [String.eqb (typeof ?v) "function"] =>
      destruct (String.eqb (typeof v) "function") eqn:?
  end.

Ltac unfold_callbacks :=
  unfold callback_lines, exportCallback, implementationCallback, polyfillCallback,
    shimCallback, autoCallback, t_test, t_equal, t_ok, t_end, comment,
    has_assert, has_comment, has_skip, has_spawn in *.

Ltac callback_crush :=
  unfold_callbacks; split_silent;
  try reflexivity; try discriminate.

Ltac destruct_flags :=
  repeat match goal with b : bool |- _ => destruct b end.

Ltac battery_lacks :=
  rewrite existsb_battery by reflexivity;
  repeat (apply orb_false_iff; split);
  cbn [isBound isProperty skipShimPolyfill skipAutoShim isMulti] in *;
  destruct_flags; callback_crush.

(** C2, as the code has it.  With [--multi] set, the battery run on a
    sub-package never asserts the three linkage checks (3, 5 and 7),
    and, when it runs to its end, carries a skip comment for each.
    Check 9 is not among them: for a callable shim the battery asserts
    "shim returns polyfill" unless [--skip-shim-returns-polyfill] is
    set, in multi mode as in single mode. *)
Theorem multi_mode_skips_linkage_checks (h : Host) (cfg : Config)
    (packageDir name : string) (log : list Record) (res : Result Value)
    (lines : list Line) (crash : option Exn) :
  isMulti cfg = true ->
  doValidation h cfg packageDir name = (log, res) ->
  run_queue log = (lines, crash) ->
  has_assert "module.exports.implementation === implementation.js" lines = false /\
  has_assert "module.exports.getPolyfill === polyfill.js" lines = false /\
  has_assert "module.exports.shim === shim.js" lines = false /\
  (res = Done VUndefined -> crash = None ->
     has_comment "# SKIP module.exports.implementation === implementation.js" lines = true /\
     has_comment "# SKIP module.exports.getPolyfill === polyfill.js" lines = true /\
     has_comment "# SKIP module.exports.shim === shim.js" lines = true /\
     forall shim,
       requireOrEvalError h (packageDir ++ "/shim") = ([], Done shim) ->
       typeof shim = "function" ->
       has_assert shimReturnsPolyfillMsg lines = negb (skipShimPolyfill cfg)).
Proof.
  intros Hm Hdo Hrun.
  destruct cfg as [b p sp sa mu]. simpl in Hm. subst mu.
  assert (Hlines : lines = fst (run_queue log)) by (rewrite Hrun; reflexivity).
  assert (Hneg : forall q : Line -> bool,
            (forall n, q (LTest n) = false) ->
            (forall m i s g,
               existsb q (all_lines (battery h (Build_Config b p sp sa true)
                                       packageDir m i s g)) = false) ->
            existsb q lines = false).
  { intros q Hq Hb. rewrite Hlines. apply run_queue_lacks.
    destruct (doValidation_log h (Build_Config b p sp sa true) packageDir name)
      as [Hnil | (m & i & s & g & _ & _ & _ & _ & _ & Hbat)];
      rewrite Hdo in *; simpl in *.
    - rewrite Hnil. reflexivity.
    - injection Hbat as -> _. apply Hb. }
  split; [| split; [| split]].
  - apply Hneg; [reflexivity |]. intros m i s g. battery_lacks.
  - apply Hneg; [reflexivity |]. intros m i s g. battery_lacks.
  - apply Hneg; [reflexivity |]. intros m i s g. battery_lacks.
  - intros -> ->.
    destruct (doValidation_undefined _ _ _ _ _ Hdo) as (m & i & s & g & Hs & ->).
    pose proof (run_queue_complete _ _ Hrun) as ->.
    pose proof (run_queue_no_crash _ _ Hrun) as Hnc.
    assert (Hshim : crash_of (shimCallback h (Build_Config b p sp sa true) m s g) = None).
    { eapply Hnc. unfold battery. simpl. do 3 right. left. reflexivity. }
    unfold has_comment, has_assert.
    split; [| split; [| split]].
    + rewrite existsb_battery by reflexivity.
      replace (existsb _ (callback_lines (implementationCallback _ m i))) with true;
        [rewrite ?orb_true_r; reflexivity |].
      clear. destruct p; reflexivity.
    + rewrite existsb_battery by reflexivity.
      replace (existsb _ (callback_lines (polyfillCallback _ m g))) with true;
        [rewrite ?orb_true_r; reflexivity |].
      reflexivity.
    + rewrite existsb_battery by reflexivity.
      replace (existsb _ (callback_lines (shimCallback _ _ m s g))) with true;
        [rewrite ?orb_true_r; reflexivity |].
      clear - Hshim. symmetry. destruct_flags; callback_crush.
    + intros s' Hs' Hty. rewrite Hs in Hs'. injection Hs' as <-.
      apply String.eqb_eq in Hty.
      rewrite existsb_battery by reflexivity.
      cbn [skipShimPolyfill].
      replace (existsb _ (callback_lines (exportCallback _ _ m g))) with false
        by (clear; symmetry; destruct_flags; callback_crush).
      replace (existsb _ (callback_lines (implementationCallback _ m i))) with false
        by (clear; symmetry; destruct_flags; callback_crush).
      replace (existsb _ (callback_lines (polyfillCallback _ m g))) with false
        by (clear; symmetry; destruct_flags; callback_crush).
      replace (existsb _ (callback_lines (autoCallback _ _ packageDir false))) with false
        by (clear; symmetry; destruct_flags; callback_crush).
      rewrite orb_false_r. cbn [orb].
      clear - Hshim Hty. unfold_callbacks. cbn [isMulti skipShimPolyfill] in *.
      rewrite Hty in *.
      destruct sp; [reflexivity |].
      split_silent; try reflexivity; discriminate.
Qed.

Lemma multi_mode_skips_linkage_checks_witness :
  let d := doValidation Scenario.root Scenario.multi "/pkg/a" "/pkg/a" in
  let lines := fst (run_queue (fst d)) in
  isMulti Scenario.multi = true /\
  snd d = Done VUndefined /\
  snd (run_queue (fst d)) = None /\
  has_assert "module.exports.implementation === implementation.js" lines = false /\
  has_assert "module.exports.getPolyfill === polyfill.js" lines = false /\
  has_assert "module.exports.shim === shim.js" lines = false /\
  has_comment "# SKIP module.exports.implementation === implementation.js" lines = true /\
  has_comment "# SKIP module.exports.getPolyfill === polyfill.js" lines = true /\
  has_comment "# SKIP module.exports.shim === shim.js" lines = true /\
  has_assert shimReturnsPolyfillMsg lines = true.
Proof.
  intros d lines.
  destruct (multi_mode_skips_linkage_checks Scenario.root Scenario.multi
              "/pkg/a" "/pkg/a" (fst d) (snd d) lines None
              eq_refl eq_refl eq_refl) as (H3 & H5 & H7 & Hpos).
  destruct (Hpos eq_refl eq_refl) as (S3 & S5 & S7 & H9).
  specialize (H9 Scenario.shim eq_refl eq_refl).
  repeat split; assumption.
Defined.

(** C2 as stated fails: in multi mode the sub-package [a] of the root
    at [/pkg] has check 9 asserted (and passed), not skipped. *)
Lemma multi_mode_asserts_shim_returns_polyfill :
  isMulti Scenario.multi = true /\
  skipShimPolyfill Scenario.multi = false /\
  outcome_of shimReturnsPolyfillMsg
    (fst (transcript Scenario.root Scenario.multi
            [("pkg (current directory)", FilePaths "/pkg/index.js" "/pkg")])) = Some true /\
  has_comment ("# SKIP " ++ shimReturnsPolyfillMsg)
    (fst (transcript Scenario.root Scenario.multi
            [("pkg (current directory)", FilePaths "/pkg/index.js" "/pkg")])) = false.
Proof. repeat split. Qed.

(** ** The skip flags (lines 62-64, 89, 102-106, 127-134) *)






(** ** The command line (lines 11-51) *)

Example flags_and_names_from_arguments :
  config_of_args ["--multi"; "es-shim-x"; "--bound"] =
    {| isBound := true; isProperty := false; skipShimPolyfill := false;
       skipAutoShim := false; isMulti := true |} /\
  moduleNames Scenario.nowhere ["--multi"; "es-shim-x"; "--bound"] =
    Start [("es-shim-x", Name "es-shim-x")].
Proof. split; reflexivity. Qed.

Example no_manifest_exits_with_1 :
  api Scenario.nowhere ["--bound"] = inl (Exit 1).
Proof. reflexivity. Qed.

(** * Further properties *)

(** ** The command line, continued (lines 11-51) *)

Lemma argEquals_unknown flag x :
  known_flag flag = true -> known_flag x = false -> argEquals flag x = false.
Proof.
  unfold argEquals. intros Hf Hx. destruct (String.eqb x flag) eqn:E; [| reflexivity].
  apply String.eqb_eq in E. subst. congruence.
Qed.

(** X1.  An argument that starts with [--] and is none of the five
    flags is dropped without a word: wherever it stands, neither the
    configuration nor the modules to test change. *)
Theorem unknown_flag_is_ignored (h : Host) (before after : list string) (x : string) :
  isArg x = true ->
  known_flag x = false ->
  config_of_args (before ++ x :: after) = config_of_args (before ++ after) /\
  moduleNames h (before ++ x :: after) = moduleNames h (before ++ after) /\
  api h (before ++ x :: after) = api h (before ++ after).
Proof.
  intros Ha Hk.
  assert (Hc : config_of_args (before ++ x :: after) = config_of_args (before ++ after)).
  { unfold config_of_args. rewrite !existsb_app. cbn [existsb].
    rewrite !(fun f H => argEquals_unknown f x H Hk) by reflexivity.
    reflexivity. }
  assert (Hn : moduleNames h (before ++ x :: after) = moduleNames h (before ++ after)).
  { unfold moduleNames. rewrite !filter_app. cbn [filter]. rewrite Ha. reflexivity. }
  repeat split; try assumption.
  unfold api. rewrite Hn, Hc. reflexivity.
Qed.

Lemma unknown_flag_is_ignored_witness :
  isArg "--bounds" = true /\
  known_flag "--bounds" = false /\
  api Scenario.goodPackage ["/pkg/index.js"; "--bounds"; "--property"] =
  api Scenario.goodPackage ["/pkg/index.js"; "--property"].
Proof.
  split; [reflexivity |]. split; [reflexivity |].
  apply (unknown_flag_is_ignored Scenario.goodPackage ["/pkg/index.js"] ["--property"]
           "--bounds"); reflexivity.
Defined.

Lemma names_of_args_no_flag args n : In n (names_of_args args) -> isArg n = false.
Proof.
  unfold names_of_args. intros H. apply filter_In in H.
  destruct H as [_ H]. apply negb_true_iff in H. exact H.
Qed.

(** X2.  As soon as one argument does not start with [--], the modules
    to test are the arguments that do not start with [--], each once
    per occurrence and in the order given, each standing for both the
    module to load and its package directory; no flag is among them,
    and the manifest of the working directory is not looked at: the
    result is the same on every host. *)
Theorem names_given_manifest_ignored (h h' : Host) (args : list string) :
  existsb (fun a => negb (isArg a)) args = true ->
  moduleNames h args = Start (map (fun n => (n, Name n)) (names_of_args args)) /\
  moduleNames h' args = moduleNames h args /\
  (forall n, In n (names_of_args args) -> In n args /\ isArg n = false) /\
  (forall n, In n args -> isArg n = false -> In n (names_of_args args)).
Proof.
  intros Hex.
  assert (Hne : names_of_args args <> []).
  { apply existsb_exists in Hex. destruct Hex as [a [Hin Ha]].
    intros E. assert (Hf : In a (names_of_args args))
      by (apply filter_In; split; assumption).
    rewrite E in Hf. destruct Hf. }
  assert (H : forall k, moduleNames k args
                      = Start (map (fun n => (n, Name n)) (names_of_args args))).
  { intros k. unfold moduleNames. fold (names_of_args args).
    destruct (names_of_args args) as [| n ns]; [congruence | reflexivity]. }
  split; [apply H |]. split; [rewrite !H; reflexivity |]. split.
  - intros n Hn. split; [| eapply names_of_args_no_flag; eauto].
    unfold names_of_args in Hn. apply filter_In in Hn. tauto.
  - intros n Hin Hf. unfold names_of_args. apply filter_In. split; [exact Hin |].
    rewrite Hf. reflexivity.
Qed.

Lemma names_given_manifest_ignored_witness :
  existsb (fun a => negb (isArg a)) ["--multi"; "b"; "--bound"; "a"; "b"] = true /\
  moduleNames Scenario.nowhere ["--multi"; "b"; "--bound"; "a"; "b"] =
    Start [("b", Name "b"); ("a", Name "a"); ("b", Name "b")].
Proof.
  split; [reflexivity |].
  apply (names_given_manifest_ignored Scenario.nowhere Scenario.nowhere
           ["--multi"; "b"; "--bound"; "a"; "b"]).
  reflexivity.
Defined.





(** ** The directory listing of the root (lines 163-170) *)

Lemma isSubPackageDir_candidate h d :
  isSubPackageDir h d =
  if candidateName d then lift (statSync_isDirectory h d) else ret false.
Proof. reflexivity. Qed.

Lemma dirs_filter_all_statted h entries :
  (forall d, In d entries -> candidateName d = true ->
     exists b, statSync_isDirectory h d = Returns b) ->
  filterM (isSubPackageDir h) entries =
  ([], Done (filter (fun d => candidateName d && statsAsDirectory h d) entries)).
Proof.
  induction entries as [| d ds IH]; intros Hall; [reflexivity |].
  cbn [filterM filter]. rewrite isSubPackageDir_candidate.
  rewrite IH by (intros d' Hin; apply Hall; right; exact Hin).
  destruct (candidateName d) eqn:Hc; cbn [andb]; [| reflexivity].
  destruct (Hall d (or_introl eq_refl) Hc) as [b Hb].
  unfold statsAsDirectory. rewrite Hb.
  destruct b; reflexivity.
Qed.

Lemma dirs_filter_statted h entries dirs :
  filterM (isSubPackageDir h) entries = ([], Done dirs) ->
  forall d, In d entries -> candidateName d = true ->
    exists b, statSync_isDirectory h d = Returns b.
Proof.
  revert dirs. induction entries as [| d ds IH]; intros dirs H d' Hin Hc; [destruct Hin |].
  cbn [filterM] in H. rewrite isSubPackageDir_candidate in H.
  assert (Hrest : exists rest, filterM (isSubPackageDir h) ds = ([], Done rest) /\
                  (candidateName d = true ->
                   exists b, statSync_isDirectory h d = Returns b)).
  { destruct (candidateName d).
    - destruct (statSync_isDirectory h d) as [b | e]; cbn [lift] in H;
        [rewrite bind_ret in H | discriminate].
      destruct (filterM (isSubPackageDir h) ds) as [l [rest | e]]; simpl in H;
        [| discriminate].
      injection H as Hl _. rewrite app_nil_r in Hl. subst l. eauto.
    - rewrite bind_ret in H.
      destruct (filterM (isSubPackageDir h) ds) as [l [rest | e]]; simpl in H;
        [| discriminate].
      injection H as Hl _. rewrite app_nil_r in Hl. subst l.
      exists rest. split; [reflexivity | discriminate]. }
  destruct Hrest as (rest & Hrest & Hd).
  destruct Hin as [<- | Hin]; [apply Hd, Hc | eapply IH; eauto].
Qed.

(** X4.  The filter over the listing gets to its end exactly when the
    stat of every entry that passes the name tests succeeds; entries
    that are hidden or named [node_modules], [helpers] or [test] are
    never statted, so they cannot make it throw.  Its result is then
    the sub-list, in listing order, of the entries that pass the name
    tests and stat as directories. *)
Theorem dirs_filter_result (h : Host) (entries dirs : list string) :
  filterM (isSubPackageDir h) entries = ([], Done dirs) <->
  (forall d, In d entries -> candidateName d = true ->
     exists b, statSync_isDirectory h d = Returns b) /\
  dirs = filter (fun d => candidateName d && statsAsDirectory h d) entries.
Proof.
  split.
  - intros H. pose proof (dirs_filter_statted _ _ _ H) as Hall.
    split; [exact Hall |].
    rewrite (dirs_filter_all_statted _ _ Hall) in H. congruence.
  - intros [Hall ->]. apply dirs_filter_all_statted, Hall.
Qed.

Lemma deep_equal_string x d : deep_equal x (VStr d) = true <-> x = VStr d.
Proof.
  destruct x; simpl; split; try discriminate; try congruence.
  - intros H. apply String.eqb_eq in H. congruence.
  - intros H. injection H as ->. apply String.eqb_refl.
Qed.

Lemma elems_equal_dirs elems dirs :
  elems_equal deep_equal elems (map (fun d => Some (VStr d)) dirs) = true <->
  exists k, elems = (map (fun d => Some (VStr d)) dirs ++ repeat None k)%list.
Proof.
  revert dirs. induction elems as [| [x |] es IH]; intros dirs.
  - simpl. destruct dirs as [| d ds]; simpl.
    + split; [exists 0; reflexivity | reflexivity].
    + split; [discriminate | intros [k H]; discriminate].
  - destruct dirs as [| d ds]; simpl.
    + split; [discriminate | intros [[| k] H]; discriminate].
    + rewrite andb_true_iff, deep_equal_string, IH. split.
      * intros [-> [k ->]]. exists k. reflexivity.
      * intros [k H]. injection H as -> ->. eauto.
  - destruct dirs as [| d ds].
    + change (elems_equal deep_equal (None :: es) (map (fun d => Some (VStr d)) []))
        with (elems_equal deep_equal es (map (fun d => Some (VStr d)) [])).
      rewrite IH. simpl. split.
      * intros [k ->]. exists (S k). reflexivity.
      * intros [[| k] H]; [discriminate |]. injection H as ->. eauto.
    + simpl. split; [discriminate | intros [k H]; discriminate].
Qed.

(** X5.  "main export subpackages matches dirs in the package root"
    passes exactly when the export has no enumerable property besides
    its elements and its elements are the strings of the computed
    list, one for one and in the same order, followed at most by holes.
    An element that is not a string, a name out of place, a name too
    many or too few: each fails it. *)
Theorem dirs_comparison_passes_iff (r : Ref) (elems : list (option Value))
    (props : list (string * Value)) (dirs : list string) :
  passes (DeepEqual (VArray r elems props) (array_of_strings dirs)) = true <->
  props = [] /\
  exists k, elems = (map (fun d => Some (VStr d)) dirs ++ repeat None k)%list.
Proof.
  unfold passes, array_of_strings. cbn [deep_equal].
  rewrite !andb_true_iff, elems_equal_dirs.
  destruct props as [| p ps]; simpl.
  - intuition.
  - intuition discriminate.
Qed.

(** X6.  When the validator runs in the package directory, so that
    the package directory is the working directory (as it is whenever
    the package comes from the manifest) and a bare entry name stats as
    the entry of that directory does, the root check of line 170
    compares the export with the eligible sub-directories of the
    package directory: the entries, in listing order, that are not
    hidden, not [node_modules], [helpers] or [test], and are
    directories. *)
Theorem dirs_assertion_in_working_directory (h : Host) (cfg : Config)
    (subPackages : Value) (elems : list (option Value))
    (props : list (string * Value)) (entries : list string) :
  readdirSync h (cwd h) = Returns entries ->
  (forall d, In d entries -> candidateName d = true ->
     exists b, statSync_isDirectory h d = Returns b /\
               statSync_isDirectory h (path_join h (cwd h) d) = Returns b) ->
  In (Assert (DeepEqual subPackages
                (array_of_strings (eligibleSubDirs h (cwd h) entries)))
        "main export subpackages matches dirs in the package root")
     (fst (rootChecks h cfg (cwd h) subPackages elems props)).
Proof.
  intros Hls Hst. unfold rootChecks. rewrite !bind_emit. cbn [fst].
  rewrite Hls. cbn [lift]. rewrite bind_ret.
  rewrite dirs_filter_all_statted
    by (intros d Hin Hc; destruct (Hst d Hin Hc) as [b [Hb _]]; eauto).
  rewrite bind_done. unfold t_deepEqual. rewrite bind_emit. cbn [fst].
  do 2 right. left. do 2 f_equal. f_equal.
  unfold eligibleSubDirs. apply filter_ext_in. intros d Hin.
  fold (candidateName d). destruct (candidateName d) eqn:Hc; [| reflexivity].
  destruct (Hst d Hin Hc) as [b [Hb Hb']].
  unfold statsAsDirectory, isDirectoryOf. rewrite Hb, Hb'. reflexivity.
Qed.

Lemma dirs_assertion_in_working_directory_witness :
  let entries := [".git"; "a"; "auto.js"; "index.js"; "node_modules"; "shim.js"; "test"] in
  cwd More.rootInPlace = "/pkg" /\
  readdirSync More.rootInPlace (cwd More.rootInPlace) = Returns entries /\
  eligibleSubDirs More.rootInPlace (cwd More.rootInPlace) entries = ["a"] /\
  In (Assert (DeepEqual Scenario.subPackages (array_of_strings ["a"]))
        "main export subpackages matches dirs in the package root")
     (fst (rootChecks More.rootInPlace Scenario.multi "/pkg" Scenario.subPackages
             [Some (VStr "a")] [])).
Proof.
  intros entries.
  split; [reflexivity |]. split; [reflexivity |]. split; [reflexivity |].
  apply (dirs_assertion_in_working_directory More.rootInPlace Scenario.multi
           Scenario.subPackages [Some (VStr "a")] [] entries); [reflexivity |].
  intros d Hin Hc. simpl in Hin.
  repeat (destruct Hin as [<- | Hin]; [try discriminate Hc; eexists; split; reflexivity |]).
  destruct Hin.
Defined.

(** ** What ends a run before its time (lines 59-141) *)

Lemma runs_to_end_cons r rs :
  runs_to_end (run_queue (r :: rs)) =
  runs_to_end (run_test r) && runs_to_end (run_queue rs).
Proof.
  unfold runs_to_end. simpl.
  destruct (run_test r) as [l [e |]]; [reflexivity |].
  destruct (run_queue rs) as [l' c]. reflexivity.
Qed.

Lemma runs_to_end_test name cb :
  runs_to_end (run_test (Test name false (fst cb) (crash_of cb))) = callback_ok cb.
Proof.
  unfold callback_ok. destruct (crash_of cb) as [e |]; [reflexivity |].
  rewrite run_test_queue. reflexivity.
Qed.

Lemma runs_to_end_battery h cfg packageDir module implementation shim getPolyfill :
  runs_to_end
    (run_queue (battery h cfg packageDir module implementation shim getPolyfill)) =
  callback_ok (exportCallback h cfg module getPolyfill)
  && callback_ok (implementationCallback cfg module implementation)
  && callback_ok (polyfillCallback cfg module getPolyfill)
  && callback_ok (shimCallback h cfg module shim getPolyfill)
  && callback_ok (autoCallback h cfg packageDir false).
Proof.
  unfold battery. rewrite !runs_to_end_cons, !runs_to_end_test.
  change (runs_to_end (run_queue [])) with true.
  rewrite andb_true_r, !andb_assoc. reflexivity.
Qed.

Lemma doValidation_loaded h cfg packageDir name module implementation shim getPolyfill :
  requireOrEvalError h name = ([], Done module) ->
  instanceof_EvalError module = false ->
  requireOrEvalError h (packageDir ++ "/implementation") = ([], Done implementation) ->
  requireOrEvalError h (packageDir ++ "/shim") = ([], Done shim) ->
  requireOrEvalError h (packageDir ++ "/polyfill") = ([], Done getPolyfill) ->
  doValidation h cfg packageDir name =
    (battery h cfg packageDir module implementation shim getPolyfill, Done VUndefined).
Proof.
  intros Hm Hi Himpl Hshim Hpoly. unfold doValidation.
  rewrite Hm, bind_done, Hi, Himpl, bind_done, Hshim, bind_done, Hpoly, bind_done.
  reflexivity.
Qed.

Ltac callback_ok_cases :=
  unfold callback_ok, exportCallback, implementationCallback, polyfillCallback,
    shimCallback, autoCallback, t_test, t_equal, t_ok, t_end, comment, returns, nullish;
  cbn [isBound isProperty skipShimPolyfill skipAutoShim isMulti];
  repeat match goal with
  | |- context [call_value ?h ?f] =>
      case_silent (call_value h f) (call_value_silent h f)
  | |- context [lift ?o] =>
      case_silent (lift o) (lift_silent o)
  | |- context [String.eqb (typeof ?v) "function"] =>
      destruct (String.eqb (typeof v) "function") eqn:?
  end;
  reflexivity.

Lemma exportCallback_ok h cfg module getPolyfill :
  callback_ok (exportCallback h cfg module getPolyfill) =
  isBound cfg || returns (call_value h getPolyfill).
Proof. destruct cfg as [[] p sp sa mu]; callback_ok_cases. Qed.

Lemma implementationCallback_ok cfg module implementation :
  callback_ok (implementationCallback cfg module implementation) =
  isMulti cfg || negb (nullish module).
Proof. destruct cfg as [b [] sp sa []], module; callback_ok_cases. Qed.

Lemma polyfillCallback_ok cfg module getPolyfill :
  callback_ok (polyfillCallback cfg module getPolyfill) =
  isMulti cfg || negb (nullish module).
Proof. destruct cfg as [b p sp sa []], module; callback_ok_cases. Qed.

Lemma shimCallback_ok h cfg module shim getPolyfill :
  callback_ok (shimCallback h cfg module shim getPolyfill) =
  (isMulti cfg || negb (nullish module))
  && (negb (String.eqb (typeof shim) "function")
      || skipShimPolyfill cfg
      || returns (call_value h shim) && returns (call_value h getPolyfill)).
Proof. destruct cfg as [b p [] sa []], module; callback_ok_cases. Qed.

Lemma autoCallback_ok h cfg packageDir asMulti :
  callback_ok (autoCallback h cfg packageDir asMulti) =
  skipAutoShim cfg || returns (lift (require h (path_join h packageDir "/auto"))).
Proof. destruct cfg as [b p sp [] mu], asMulti; callback_ok_cases. Qed.

(** X7.  What lets the battery of a loaded package run to its end, and
    nothing else does: the polyfill getter can be called (or [--bound]
    is set); the main export is not [undefined] or [null] (or
    [--multi] is set, which reads no property of it); the shim, if it is
    callable, and the polyfill getter can be called one after the other
    (or [--skip-shim-returns-polyfill] is set); and the auto entry
    point loads (or [--skip-auto-shim] is set).  Whenever one of these
    fails, an exception escapes a test callback and the run dies there
    instead of reporting a failed assertion. *)
Theorem battery_runs_to_end_iff (h : Host) (cfg : Config) (packageDir name : string)
    (module implementation shim getPolyfill : Value) :
  requireOrEvalError h name = ([], Done module) ->
  instanceof_EvalError module = false ->
  requireOrEvalError h (packageDir ++ "/implementation") = ([], Done implementation) ->
  requireOrEvalError h (packageDir ++ "/shim") = ([], Done shim) ->
  requireOrEvalError h (packageDir ++ "/polyfill") = ([], Done getPolyfill) ->
  runs_to_end (run_queue (fst (doValidation h cfg packageDir name))) =
  (isBound cfg || returns (call_value h getPolyfill))
  && (isMulti cfg || negb (nullish module))
  && (negb (String.eqb (typeof shim) "function")
      || skipShimPolyfill cfg
      || returns (call_value h shim) && returns (call_value h getPolyfill))
  && (skipAutoShim cfg
      || returns (lift (require h (path_join h packageDir "/auto")))).
Proof.
  intros Hm Hi Himpl Hshim Hpoly.
  rewrite (doValidation_loaded _ cfg _ _ _ _ _ _ Hm Hi Himpl Hshim Hpoly).
  cbn [fst]. rewrite runs_to_end_battery.
  rewrite exportCallback_ok, implementationCallback_ok, polyfillCallback_ok,
    shimCallback_ok, autoCallback_ok.
  destruct (isBound cfg || returns (call_value h getPolyfill));
    destruct (isMulti cfg || negb (nullish module));
    destruct (negb (String.eqb (typeof shim) "function")
              || skipShimPolyfill cfg
              || returns (call_value h shim) && returns (call_value h getPolyfill));
    reflexivity.
Qed.

Lemma battery_runs_to_end_iff_witness :
  requireOrEvalError More.noPolyfill "/pkg/polyfill" =
    ([], Done (VError None EvalErrorClass "Cannot find module '/pkg/polyfill'")) /\
  runs_to_end (run_queue (fst (doValidation More.noPolyfill Scenario.single
                                 "/pkg" "/pkg/index.js"))) = false /\
  runs_to_end (run_queue (fst (doValidation More.noPolyfill More.bound
                                 "/pkg" "/pkg/index.js"))) = false /\
  runs_to_end (run_queue (fst (doValidation More.noPolyfill Scenario.allSkips
                                 "/pkg" "/pkg/index.js"))) = true.
Proof.
  split; [reflexivity |].
  rewrite !(fun cfg =>
    battery_runs_to_end_iff More.noPolyfill cfg "/pkg" "/pkg/index.js"
      Scenario.main Scenario.impl Scenario.shim
      (VError None EvalErrorClass "Cannot find module '/pkg/polyfill'")
      eq_refl eq_refl eq_refl eq_refl eq_refl).
  repeat split.
Defined.

(** ** Exports of the wrong shape in multi mode (lines 150-161, 179-182) *)

(** X8.  In multi mode a main export that is not an array (and brings
    no [map] of its own) gets one failed assertion, "main export is an
    array of sub packages", and then ends the run: line 158 calls
    [map] on it, which throws.  None of the other root checks is made,
    no sub-package is validated and "expected no error" is never
    asserted. *)
Theorem non_array_export_ends_run (h : Host) (cfg : Config) (shown : string)
    (nf : NameOrFilePaths) (v : Value) :
  isMulti cfg = true ->
  requireOrEvalError h (name_of nf) = ([], Done v) ->
  instanceof_EvalError v = false ->
  has_no_map v = true ->
  exists what,
    transcript h cfg [(shown, nf)] =
      ([ LTest ("es-shim API : testing module: " ++ shown);
         LComment "* ----------------------------- * #";
         LAssert (Ok (VBool false)) "main export is an array of sub packages" ],
       Some (TypeError what)) /\
    passes (Ok (VBool false)) = false.
Proof.
  intros Hm Hload Hi Hmap.
  exists "subPackages.map is not a function". split; [| reflexivity].
  unfold transcript, testModules, moduleTest, moduleCallback, validateModule.
  cbn [map snd fst]. rewrite Hm, Hload, bind_done, Hi.
  destruct v; try discriminate Hmap; reflexivity.
Qed.

Lemma non_array_export_ends_run_witness :
  isMulti Scenario.multi = true /\
  requireOrEvalError Scenario.goodPackage "/pkg/index.js" = ([], Done Scenario.main) /\
  instanceof_EvalError Scenario.main = false /\
  has_no_map Scenario.main = true /\
  exists what,
    snd (transcript Scenario.goodPackage Scenario.multi
           [("pkg (current directory)", FilePaths "/pkg/index.js" "/pkg")]) =
      Some (TypeError what) /\
    has_assert "expected no error"
      (fst (transcript Scenario.goodPackage Scenario.multi
              [("pkg (current directory)", FilePaths "/pkg/index.js" "/pkg")])) = false.
Proof.
  split; [reflexivity |]. split; [reflexivity |]. split; [reflexivity |].
  split; [reflexivity |].
  destruct (non_array_export_ends_run Scenario.goodPackage Scenario.multi
              "pkg (current directory)" (FilePaths "/pkg/index.js" "/pkg")
              Scenario.main eq_refl eq_refl eq_refl eq_refl) as [what [H _]].
  exists what. rewrite H. split; reflexivity.
Defined.

(** X9.  In multi mode a declared sub-package whose main module does
    not load, or exports an [EvalError], goes unreported: its
    validation logs nothing (no test, no assertion) and the loop moves
    on to the next name. *)
Theorem unloadable_sub_package_goes_unreported (h : Host) (cfg : Config)
    (name n : string) (v : Value) (rest : list (option Value)) :
  requireOrEvalError h (path_join h (path_dirname h name) n) = ([], Done v) ->
  instanceof_EvalError v = true ->
  validateSubPackage h cfg name (VStr n) = ([], Done tt) /\
  Array_forEach (validateSubPackage h cfg name) (Some (VStr n) :: rest) =
    Array_forEach (validateSubPackage h cfg name) rest.
Proof.
  intros Hload Hi.
  assert (H : validateSubPackage h cfg name (VStr n) = ([], Done tt)).
  { unfold validateSubPackage, path_join_value, doValidation.
    rewrite bind_ret, Hload, bind_done, Hi. reflexivity. }
  split; [exact H |].
  cbn [Array_forEach]. rewrite H, bind_done. reflexivity.
Qed.

Lemma unloadable_sub_package_goes_unreported_witness :
  requireOrEvalError Scenario.root
    (path_join Scenario.root (path_dirname Scenario.root "/pkg/index.js") "ghost") =
    ([], Done (VError None EvalErrorClass "Cannot find module '/pkg/ghost'")) /\
  validateSubPackage Scenario.root Scenario.multi "/pkg/index.js" (VStr "ghost") =
    ([], Done tt).
Proof.
  split; [reflexivity |].
  apply (unloadable_sub_package_goes_unreported Scenario.root Scenario.multi
           "/pkg/index.js" "ghost"
           (VError None EvalErrorClass "Cannot find module '/pkg/ghost'") []);
    reflexivity.
Defined.

(** ** Sub-modules that fail to load (lines 81-83, 96-136) *)





(** ** A package that keeps the contract (lines 76-141, 190-198) *)

(** X11.  In single mode, a package that keeps the contract passes
    whatever flags are set: when the main export is a function whose
    [implementation], [getPolyfill] and [shim] properties are the very
    functions the three sub-modules export, the polyfill getter and the
    shim both return the main export, and the auto entry point loads,
    the run gets to its end and every assertion in its transcript
    passes; the assertion left to the probe passes when the probe exits
    with code 0. *)
Theorem conforming_package_passes (h : Host) (cfg : Config) (shown name packageDir : string)
    (rm ri rg rs : nat) (pm pi pg ps pi' pg' ps' pr pr' : list (string * Value))
    (auto : Value) :
  isMulti cfg = false ->
  require h name = Returns (VFunction rm pm) ->
  require h (packageDir ++ "/implementation") = Returns (VFunction ri pi) ->
  require h (packageDir ++ "/polyfill") = Returns (VFunction rg pg) ->
  require h (packageDir ++ "/shim") = Returns (VFunction rs ps) ->
  lookup "implementation" pm = Some (VFunction ri pi') ->
  lookup "getPolyfill" pm = Some (VFunction rg pg') ->
  lookup "shim" pm = Some (VFunction rs ps') ->
  call h rg = Returns (VFunction rm pr) ->
  call h rs = Returns (VFunction rm pr') ->
  require h (path_join h packageDir "/auto") = Returns auto ->
  let ran := transcript h cfg [(shown, FilePaths name packageDir)] in
  snd ran = None /\
  all_pass (fst ran) = true /\
  (forall listener, In (LOnClose listener) (fst ran) ->
     all_pass (own_lines (listener (VNum 0))) = true).
Proof.
  intros Hm Hmain Himpl Hpoly Hshim Li Lg Ls Cg Cs Hauto ran.
  assert (Hrun : exists lines,
            ran = (lines, None) /\ all_pass lines = true /\
            forall listener, In (LOnClose listener) lines ->
              all_pass (own_lines (listener (VNum 0))) = true).
  { subst ran.
    unfold transcript, testModules, moduleTest, moduleCallback, validateModule.
    cbn [map snd fst name_of packageDir_of]. rewrite Hm.
    rewrite (doValidation_loaded h cfg packageDir name _ _ _ _
               (requireOrEvalError_returns _ _ _ Hmain) eq_refl
               (requireOrEvalError_returns _ _ _ Himpl)
               (requireOrEvalError_returns _ _ _ Hshim)
               (requireOrEvalError_returns _ _ _ Hpoly)).
    unfold battery, exportCallback, implementationCallback, polyfillCallback,
      shimCallback, autoCallback, call_value, get_prop.
    rewrite Hm, Li, Lg, Ls, Cg, Cs, Hauto.
    destruct cfg as [[] [] [] [] mu]; cbn;
      (eexists; split; [reflexivity |]; split;
       [cbn; rewrite ?Nat.eqb_refl; reflexivity |];
       intros k Hin; cbn in Hin;
       repeat (destruct Hin as [Hin | Hin]; [try discriminate Hin |]);
       try contradiction;
       injection Hin as <-; reflexivity). }
  destruct Hrun as (lines & -> & Hpass & Hprobe). auto.
Qed.

Lemma conforming_package_passes_witness :
  let ran :=
    transcript Scenario.goodPackage Scenario.single
      [("pkg (current directory)", FilePaths "/pkg/index.js" "/pkg")] in
  isMulti Scenario.single = false /\
  require Scenario.goodPackage "/pkg/index.js" = Returns Scenario.main /\
  call Scenario.goodPackage 3 = Returns Scenario.main /\
  call Scenario.goodPackage 4 = Returns Scenario.main /\
  snd ran = None /\
  all_pass (fst ran) = true.
Proof.
  intros ran.
  split; [reflexivity |]. split; [reflexivity |]. split; [reflexivity |].
  split; [reflexivity |].
  destruct (conforming_package_passes Scenario.goodPackage Scenario.single
              "pkg (current directory)" "/pkg/index.js" "/pkg" 1 2 3 4
              [("implementation", Scenario.impl); ("getPolyfill", Scenario.getPolyfill);
               ("shim", Scenario.shim)]
              [] [] [] [] [] []
              [("implementation", Scenario.impl); ("getPolyfill", Scenario.getPolyfill);
               ("shim", Scenario.shim)]
              [("implementation", Scenario.impl); ("getPolyfill", Scenario.getPolyfill);
               ("shim", Scenario.shim)]
              VUndefined
              eq_refl eq_refl eq_refl eq_refl eq_refl eq_refl eq_refl eq_refl
              eq_refl eq_refl eq_refl) as (H1 & H2 & _).
  split; assumption.
Defined.

(** ** The probe and the in-process load (lines 62-73) *)

Lemma spawn_only_in_auto h cfg packageDir module implementation shim getPolyfill :
  has_spawn (all_lines (battery h cfg packageDir module implementation shim getPolyfill)) =
  has_spawn (callback_lines (autoCallback h cfg packageDir false)).
Proof.
  unfold has_spawn. rewrite existsb_battery by reflexivity.
  replace (existsb _ (callback_lines (exportCallback h cfg module getPolyfill)))
    with false by (symmetry; destruct cfg as [[] p sp sa mu]; callback_crush).
  replace (existsb _ (callback_lines (implementationCallback cfg module implementation)))
    with false by (symmetry; destruct cfg as [b [] sp sa []]; callback_crush).
  replace (existsb _ (callback_lines (polyfillCallback cfg module getPolyfill)))
    with false by (symmetry; destruct cfg as [b p sp sa []]; callback_crush).
  replace (existsb _ (callback_lines (shimCallback h cfg module shim getPolyfill)))
    with false by (symmetry; destruct cfg as [b p [] sa []]; callback_crush).
  reflexivity.
Qed.

(** X12.  No probe without the in-process load: a transcript of the
    battery shows a spawned process only if [--skip-auto-shim] is not
    set and the auto entry point of the package has loaded in the
    validator's own process.  When that load throws, the run ends
    there and nothing is spawned. *)
Theorem probe_only_after_load (h : Host) (cfg : Config) (packageDir name : string)
    (log : list Record) (res : Result Value) (lines : list Line) (crash : option Exn) :
  doValidation h cfg packageDir name = (log, res) ->
  run_queue log = (lines, crash) ->
  has_spawn lines = true ->
  skipAutoShim cfg = false /\
  exists v, require h (path_join h packageDir "/auto") = Returns v.
Proof.
  intros Hdo Hrun Hsp.
  destruct (skipAutoShim cfg) eqn:Hskip;
    destruct (require h (path_join h packageDir "/auto")) as [v | e] eqn:Hauto;
    try (split; [reflexivity | eauto]; fail);
    exfalso;
    (assert (Hno : has_spawn lines = false); [| congruence]);
    replace lines with (fst (run_queue log)) by (rewrite Hrun; reflexivity);
    apply run_queue_lacks;
    (destruct (doValidation_log h cfg packageDir name)
       as [Hnil | (m & i & s & g & _ & _ & _ & _ & _ & Hbat)];
     rewrite Hdo in *; cbn [fst] in *;
     [rewrite Hnil; reflexivity | injection Hbat as -> _]);
    fold (has_spawn (all_lines (battery h cfg packageDir m i s g)));
    rewrite spawn_only_in_auto;
    unfold has_spawn, callback_lines, autoCallback;
    rewrite Hskip, ?Hauto; reflexivity.
Qed.

Lemma probe_only_after_load_witness :
  let d := doValidation Scenario.goodPackage Scenario.single "/pkg" "/pkg/index.js" in
  has_spawn (fst (run_queue (fst d))) = true /\
  skipAutoShim Scenario.single = false /\
  require Scenario.goodPackage (path_join Scenario.goodPackage "/pkg" "/auto") =
    Returns VUndefined.
Proof.
  intros d. split; [reflexivity |].
  destruct (probe_only_after_load Scenario.goodPackage Scenario.single
              "/pkg" "/pkg/index.js" (fst d) (snd d) (fst (run_queue (fst d)))
              (snd (run_queue (fst d))) eq_refl eq_refl eq_refl) as [H _].
  split; [exact H | reflexivity].
Defined.
